(** * operations_bot: the WhatsApp status-update bot of [api/index.py]

    A shallow embedding of the request handlers of [api/index.py] and of the
    helpers they call, followed by the properties of the update pipeline.

    Python values are embedded as the type [pyval] (what [json.loads] and the
    service clients hand to the code: [None], booleans, integers, floats,
    strings, lists and dictionaries), with the dynamic behaviour of the
    operations the source applies to them written out: truthiness, [or],
    [float()], [int()], [bool()], slicing, indexing, [.get], [.setdefault],
    [.strip()].  A Python [str] is a sequence of code points ([list N]).

    Everything outside the source file is gathered in the record [World]: the
    process environment, the clock, the Notion, OpenAI and Twilio clients, and
    the parsers of the Python library.  The handlers run in a state-and-error
    monad that records the calls made to the services in order. *)

From Stdlib Require Import ZArith NArith List Bool Ascii String Floats Lia.
From Stdlib Require Import DecimalString DecimalPos DecimalZ FinFun.
Import ListNotations.

Set Implicit Arguments.
Set Warnings "-register-all".

(* ================================================================== *)
(** ** Python strings *)
(* ================================================================== *)

(** A [str] is a sequence of Unicode code points. *)
Definition pystr := list N.

(** Text of an ASCII literal. *)
Definition s (x : string) : pystr :=
  List.map N_of_ascii (list_ascii_of_string x).

(** The right single quotation mark U+2019 of the reply templates, and the
    line feed. *)
Definition rsquo : pystr := [8217%N].
Definition nl : pystr := [10%N].

Fixpoint str_eqb (a b : pystr) : bool :=
  match a, b with
  | [], [] => true
  | x :: a', y :: b' => N.eqb x y && str_eqb a' b'
  | _, _ => false
  end.

(** [str.isspace] on one code point: the characters CPython's
    [_PyUnicode_IsWhitespace] accepts. *)
Definition is_space (c : N) : bool :=
  ((9 <=? c) && (c <=? 13) || (28 <=? c) && (c <=? 32)
   || (c =? 133) || (c =? 160) || (c =? 5760)
   || (8192 <=? c) && (c <=? 8202)
   || (c =? 8232) || (c =? 8233) || (c =? 8239) || (c =? 8287)
   || (c =? 12288))%N.

Fixpoint lstrip (x : pystr) : pystr :=
  match x with
  | [] => []
  | c :: x' => if is_space c then lstrip x' else x
  end.

Definition rstrip (x : pystr) : pystr := rev (lstrip (rev x)).

(** [x.strip()] *)
Definition strip (x : pystr) : pystr := rstrip (lstrip x).

Fixpoint startswith (x p : pystr) : bool :=
  match p, x with
  | [], _ => true
  | c :: p', d :: x' => N.eqb c d && startswith x' p'
  | _ :: _, [] => false
  end.

(** [x.replace(old, new)] for a non-empty [old]: occurrences are replaced from
    left to right and do not overlap; [skip] counts the characters of an
    occurrence still to be dropped. *)
Fixpoint replace_from (old new x : pystr) (skip : nat) : pystr :=
  match x with
  | [] => []
  | c :: x' =>
      match skip with
      | S k => replace_from old new x' k
      | O => if startswith x old
             then new ++ replace_from old new x' (List.length old - 1)
             else c :: replace_from old new x' 0
      end
  end.

Definition replace (x old new : pystr) : pystr := replace_from old new x 0.

(** ["sep".join(parts)] *)
Fixpoint join (sep : pystr) (parts : list pystr) : pystr :=
  match parts with
  | [] => []
  | [p] => p
  | p :: rest => p ++ sep ++ join sep rest
  end.

(** [chr(i)], for [i] in the range of code points. *)
Definition chr (i : Z) : pystr := [Z.to_N i].

(** [str(z)] of an integer, and the format [{z:02d}]. *)
Definition str_of_Z (z : Z) : pystr := s (NilZero.string_of_int (Z.to_int z)).

Definition format_02d (z : Z) : pystr :=
  let d := str_of_Z z in
  if (List.length d <? 2)%nat then s "0" ++ d else d.

(* ================================================================== *)
(** ** Python values and exceptions *)
(* ================================================================== *)

Inductive pyval : Type :=
| PNone
| PBool (b : bool)
| PInt (z : Z)
| PFloat (f : float)
| PStr (x : pystr)
| PList (l : list pyval)
| PDict (kvs : list (pystr * pyval)).

Inductive exn : Type :=
| TypeError
| ValueError
| KeyError
| IndexError
| AttributeError
| OverflowError
| JSONDecodeError
| HTTPException (status_code : Z) (detail : pystr)
| ServiceError (service : pystr).

Inductive result (A : Type) : Type :=
| Ok (a : A)
| Raise (e : exn).
Arguments Ok {A} a.
Arguments Raise {A} e.

Definition rbind {A B} (r : result A) (k : A -> result B) : result B :=
  match r with
  | Ok a => k a
  | Raise e => Raise e
  end.

(** [try: r  except Exception: d] *)
Definition try_except {A} (r : result A) (d : A) : A :=
  match r with
  | Ok a => a
  | Raise _ => d
  end.

Declare Scope py_scope.
Delimit Scope py_scope with py.
Notation "x <- r ;; k" := (rbind r (fun x => k))
  (at level 61, r at next level, right associativity) : py_scope.

(** Truth value of a Python object ([if v], [not v], [v or w], [bool(v)]). *)
Definition truthy (v : pyval) : bool :=
  match v with
  | PNone => false
  | PBool b => b
  | PInt z => negb (z =? 0)%Z
  | PFloat f => negb (PrimFloat.eqb f 0%float)
  | PStr x => match x with [] => false | _ => true end
  | PList l => match l with [] => false | _ => true end
  | PDict kvs => match kvs with [] => false | _ => true end
  end.

(** [v or w] *)
Definition py_or (v w : pyval) : pyval := if truthy v then v else w.

(** A dictionary holds each key once and keeps its items in insertion
    order. *)
Fixpoint lookup {V : Type} (k : pystr) (kvs : list (pystr * V)) : option V :=
  match kvs with
  | [] => None
  | (k', v) :: rest => if str_eqb k k' then Some v else lookup k rest
  end.

(** [d[k] = v] *)
Fixpoint setitem (k : pystr) (v : pyval) (kvs : list (pystr * pyval))
  : list (pystr * pyval) :=
  match kvs with
  | [] => [(k, v)]
  | (k', v') :: rest =>
      if str_eqb k k' then (k', v) :: rest else (k', v') :: setitem k v rest
  end.

(** [d.get(k, default)]; only a dictionary has the method. *)
Definition py_get (d : pyval) (k : pystr) (default : pyval) : result pyval :=
  match d with
  | PDict kvs => Ok (match lookup k kvs with Some v => v | None => default end)
  | _ => Raise AttributeError
  end.

(** [d.setdefault(k, default)], returning the dictionary after the call:
    a key that is missing is added at the end. *)
Definition setdefault_items (k : pystr) (default : pyval)
    (kvs : list (pystr * pyval)) : list (pystr * pyval) :=
  match lookup k kvs with
  | Some _ => kvs
  | None => kvs ++ [(k, default)]
  end.

Definition py_setdefault (d : pyval) (k : pystr) (default : pyval)
  : result pyval :=
  match d with
  | PDict kvs => Ok (PDict (setdefault_items k default kvs))
  | _ => Raise AttributeError
  end.

(** [v[k]] with a string key. *)
Definition getitem_key (v : pyval) (k : pystr) : result pyval :=
  match v with
  | PDict kvs => match lookup k kvs with Some x => Ok x | None => Raise KeyError end
  | _ => Raise TypeError
  end.

(** [v[0]] *)
Definition getitem_0 (v : pyval) : result pyval :=
  match v with
  | PList l => match l with x :: _ => Ok x | [] => Raise IndexError end
  | PStr x => match x with c :: _ => Ok (PStr [c]) | [] => Raise IndexError end
  | PDict _ => Raise KeyError
  | _ => Raise TypeError
  end.

(** [v[:n]]: a string or a list is cut, any other value raises. *)
Definition slice_to (n : nat) (v : pyval) : result pyval :=
  match v with
  | PStr x => Ok (PStr (firstn n x))
  | PList l => Ok (PList (firstn n l))
  | _ => Raise TypeError
  end.

(** [for x in v] *)
Definition py_iter (v : pyval) : result (list pyval) :=
  match v with
  | PList l => Ok l
  | PStr x => Ok (List.map (fun c => PStr [c]) x)
  | PDict kvs => Ok (List.map (fun kv => PStr (fst kv)) kvs)
  | _ => Raise TypeError
  end.

(** [v == "text"] *)
Definition eq_str (v : pyval) (x : pystr) : bool :=
  match v with
  | PStr y => str_eqb y x
  | _ => false
  end.

(** The float nearest to an integer (ties to even), as [float(int)] computes
    it; an integer beyond the range of a double raises. *)
Definition float_of_Z (z : Z) : result float :=
  let r := binary_normalize prec emax z 0 false in
  match r with
  | S754_infinity _ => Raise OverflowError
  | _ => Ok (SF2Prim r)
  end.

(** The integer part of a float, as [int(float)] computes it. *)
Definition Z_of_float (f : float) : result Z :=
  match Prim2SF f with
  | S754_zero _ => Ok 0%Z
  | S754_infinity _ => Raise OverflowError
  | S754_nan => Raise ValueError
  | S754_finite sg m e =>
      let a := if (0 <=? e)%Z then Z.shiftl (Zpos m) e
               else Z.shiftr (Zpos m) (- e) in
      Ok (if sg then (- a)%Z else a)
  end.

(* ================================================================== *)
(** ** The world outside the source file *)
(* ================================================================== *)

(** A task of the week as [notion_get_tasks_for_member_week] builds it (a
    dictionary with exactly these keys). *)
Record Task := {
  t_id : pyval;
  t_title : pyval;
  t_status : pyval;
  t_progress : pyval;
  t_due : pyval
}.

(** An entry of the candidate summary of [ai_parse_update]. *)
Record Candidate := {
  letter : pystr;
  c_id : pyval;
  c_title : pyval;
  c_status : pyval;
  c_progress : pyval;
  c_due : pyval
}.

(** The member dictionary [{"id": ..., "name": ...}]. *)
Record Member := {
  m_id : pyval;
  m_name : pyval
}.

(** Calls to the services, as the handlers issue them. *)
Inductive call : Type :=
| DatabasesQuery (kwargs : pyval)
| PagesRetrieve (page_id : pyval)
| PagesUpdate (page_id : pyval) (properties : pyval)
| ResponsesCreate (message : pystr) (task_list : list Candidate).

(** [d.isocalendar()] of a date. *)
Record isocalendar := {
  iso_year : Z;
  iso_week : Z;
  iso_weekday : Z
}.

Record World := {
  (** [os.environ] *)
  environ : list (pystr * pystr);
  (** [float(text)], [int(text)], [json.loads(text)]: [None] when the text
      is rejected; [str(v)] of a float, a list or a dictionary. *)
  float_of_str : pystr -> option float;
  int_of_str : pystr -> option Z;
  json_loads : pystr -> option pyval;
  repr : pyval -> pystr;
  (** The clock at its n-th reading: [dt.datetime.utcnow().isoformat()] and
      [dt.date.today().isocalendar()]. *)
  utcnow_isoformat : nat -> pystr;
  today_isocalendar : nat -> isocalendar;
  (** [RequestValidator(token).validate(url, form, sig)] *)
  validate : pystr -> pystr -> list (pystr * pystr) -> pystr -> bool;
  (** The Notion and OpenAI clients: [None] when the call raises. *)
  databases_query : pyval -> option pyval;
  pages_retrieve : pyval -> option pyval;
  pages_update : pyval -> pyval -> option pyval;
  responses_create : pystr -> list Candidate -> option pystr
}.

(** An inbound HTTP request: header names in lower case, the items of the
    submitted form with their values as text, and the JSON body if it has
    one. *)
Record Request := {
  headers : list (pystr * pystr);
  url_scheme : pystr;
  url_path : pystr;
  url_query : pystr;
  form : list (pystr * pystr);
  json_body : option pyval
}.

(** What a handler returns: the TwiML envelope around one message, or a JSON
    document. *)
Inductive Response : Type :=
| Twiml (text : pyval)
| Json (body : pyval).

(** The calls made so far, oldest first, and the number of clock readings. *)
Record State := {
  trace : list call;
  ticks : nat
}.

Definition initial : State := {| trace := []; ticks := 0 |}.

Definition M (A : Type) : Type := State -> result A * State.

Definition ret {A} (a : A) : M A := fun st => (Ok a, st).

Definition raise {A} (e : exn) : M A := fun st => (Raise e, st).

Definition bind {A B} (m : M A) (k : A -> M B) : M B :=
  fun st =>
    match m st with
    | (Ok a, st') => k a st'
    | (Raise e, st') => (Raise e, st')
    end.

Definition lift {A} (r : result A) : M A := fun st => (r, st).

Declare Scope io_scope.
Delimit Scope io_scope with io.
Notation "x <- m ;; k" := (bind m (fun x => k))
  (at level 61, m at next level, right associativity) : io_scope.
Notation "m ;; k" := (bind m (fun _ => k))
  (at level 61, right associativity) : io_scope.

Definition log (c : call) (st : State) : State :=
  {| trace := trace st ++ [c]; ticks := ticks st |}.

Definition tick (st : State) : State :=
  {| trace := trace st; ticks := S (ticks st) |}.

(** A call to a service is recorded whether or not it succeeds. *)
Definition service {A} (c : call) (name : pystr) (answer : option A) : M A :=
  fun st =>
    match answer with
    | Some a => (Ok a, log c st)
    | None => (Raise (ServiceError name), log c st)
    end.

Definition read_clock {A} (at_tick : nat -> A) : M A :=
  fun st => (Ok (at_tick (ticks st)), tick st).

Section Source.

Variable w : World.

(** [os.environ.get(name, "")] *)
Definition getenv (name : pystr) : pystr :=
  match lookup name (environ w) with Some v => v | None => [] end.

Definition TWILIO_AUTH_TOKEN : pystr := getenv (s "TWILIO_AUTH_TOKEN").
Definition NOTION_TASKS_DB_ID : pystr := getenv (s "NOTION_TASKS_DB_ID").
Definition NOTION_TEAM_DB_ID : pystr := getenv (s "NOTION_TEAM_DB_ID").

(** [float(v)] *)
Definition py_float (v : pyval) : result float :=
  match v with
  | PBool b => Ok (if b then 1%float else 0%float)
  | PInt z => float_of_Z z
  | PFloat f => Ok f
  | PStr x => match float_of_str w x with
              | Some f => Ok f
              | None => Raise ValueError
              end
  | PNone | PList _ | PDict _ => Raise TypeError
  end.

(** [int(v)] *)
Definition py_int (v : pyval) : result Z :=
  match v with
  | PBool b => Ok (if b then 1%Z else 0%Z)
  | PInt z => Ok z
  | PFloat f => Z_of_float f
  | PStr x => match int_of_str w x with
              | Some z => Ok z
              | None => Raise ValueError
              end
  | PNone | PList _ | PDict _ => Raise TypeError
  end.

(** [str(v)], what an f-string puts for [{v}]. *)
Definition py_str (v : pyval) : pystr :=
  match v with
  | PStr x => x
  | PNone => s "None"
  | PBool b => if b then s "True" else s "False"
  | PInt z => str_of_Z z
  | PFloat _ | PList _ | PDict _ => repr w v
  end.

Definition is_None (v : pyval) : bool :=
  match v with PNone => true | _ => false end.

(* ---------- helpers ---------- *)

(** [r.message(text)] puts the text in the message element when it is
    truthy, and [str(r)] serialises the element: a text that is not a [str]
    makes the serialiser raise. *)
Definition twiml (text : pyval) : result Response :=
  if truthy text then
    match text with
    | PStr _ => Ok (Twiml text)
    | _ => Raise TypeError
    end
  else Ok (Twiml (PStr [])).

Definition normalize_phone (p : pystr) : pystr :=
  let p := if startswith p (s "whatsapp:")
           then replace p (s "whatsapp:") []
           else p in
  strip p.

Definition header (request : Request) (name default : pystr) : pystr :=
  match lookup name (headers request) with Some v => v | None => default end.

Definition get_full_url (request : Request) : pystr :=
  let proto := header request (s "x-forwarded-proto") (url_scheme request) in
  let host := header request (s "x-forwarded-host")
                (header request (s "host") []) in
  let path := url_path request in
  let query := url_query request in
  let base := proto ++ s "://" ++ host ++ path in
  base ++ (match query with [] => [] | _ => s "?" ++ query end).

Definition require_twilio_signature (request : Request)
    (form : list (pystr * pystr)) : M unit :=
  let sig := header request (s "x-twilio-signature") [] in
  match TWILIO_AUTH_TOKEN, sig with
  | _ :: _, _ :: _ =>
      let url := get_full_url request in
      if negb (validate w TWILIO_AUTH_TOKEN url form sig)
      then raise (HTTPException 403 (s "Invalid Twilio signature"))
      else ret tt
  | _, _ => ret tt
  end.

Definition iso_week_key (now : option isocalendar) : M pystr :=
  (d <- match now with
        | Some d => ret d
        | None => read_clock (today_isocalendar w)
        end ;;
   ret (str_of_Z (iso_year d) ++ s "-W" ++ format_02d (iso_week d)))%io.

Definition safe_text (prop : pyval) : pyval :=
  try_except (x <- getitem_0 prop ;; getitem_key x (s "plain_text"))%py
             (PStr []).

(* ---------- Notion access ---------- *)

(** The keyword arguments of the query on the team database. *)
Definition find_member_kwargs (phone_e164 : pyval) : pyval :=
  PDict [(s "database_id", PStr NOTION_TEAM_DB_ID);
         (s "filter",
          PDict [(s "property", PStr (s "WhatsApp"));
                 (s "phone_number",
                  PDict [(s "equals", phone_e164)])])].

Definition notion_find_member_by_phone (phone_e164 : pyval)
  : M (option Member) :=
  let kwargs := find_member_kwargs phone_e164 in
  (resp <- service (DatabasesQuery kwargs) (s "notion")
             (databases_query w kwargs) ;;
   results <- lift (py_get resp (s "results") PNone) ;;
   if negb (truthy results) then ret None
   else
     page <- lift (r <- getitem_key resp (s "results") ;; getitem_0 r)%py ;;
     title <- lift (p <- getitem_key page (s "properties") ;;
                    n <- getitem_key p (s "Name") ;;
                    getitem_key n (s "title"))%py ;;
     let name := safe_text title in
     page_id <- lift (getitem_key page (s "id")) ;;
     ret (Some {| m_id := page_id;
                  m_name := py_or name (PStr (s "Team member")) |}))%io.

(** The body of the loop over the pages of the answer. *)
Definition task_of_page (p : pyval) : result Task :=
  (props <- getitem_key p (s "properties") ;;
   page_id <- getitem_key p (s "id") ;;
   title <- (t <- getitem_key props (s "Task") ;; getitem_key t (s "title")) ;;
   status <- (x <- py_get props (s "Status") (PDict []) ;;
              y <- py_get x (s "select") PNone ;;
              py_get (py_or y (PDict [])) (s "name") PNone) ;;
   progress <- (x <- py_get props (s "Progress %") (PDict []) ;;
                py_get x (s "number") PNone) ;;
   due <- (x <- py_get props (s "Due Date") (PDict []) ;;
           y <- py_get x (s "date") PNone ;;
           py_get (py_or y (PDict [])) (s "start") PNone) ;;
   Ok {| t_id := page_id;
         t_title := py_or (safe_text title) (PStr (s "Untitled"));
         t_status := status;
         t_progress := progress;
         t_due := due |})%py.

Fixpoint tasks_of_pages (pages : list pyval) : result (list Task) :=
  match pages with
  | [] => Ok []
  | p :: rest =>
      (t <- task_of_page p ;;
       out <- tasks_of_pages rest ;;
       Ok (t :: out))%py
  end.

(** The keyword arguments of the query on the task database. *)
Definition get_tasks_kwargs (member_id week : pyval) : pyval :=
  PDict [(s "database_id", PStr NOTION_TASKS_DB_ID);
         (s "filter",
          PDict [(s "and",
                  PList [PDict [(s "property", PStr (s "Owner"));
                                (s "relation",
                                 PDict [(s "contains", member_id)])];
                         PDict [(s "property", PStr (s "Week"));
                                (s "select",
                                 PDict [(s "equals", week)])]])]);
         (s "sorts",
          PList [PDict [(s "property", PStr (s "Due Date"));
                        (s "direction", PStr (s "ascending"))]]);
         (s "page_size", PInt 50)].

Definition notion_get_tasks_for_member_week (member_id week : pyval)
  : M (list Task) :=
  let kwargs := get_tasks_kwargs member_id week in
  (resp <- service (DatabasesQuery kwargs) (s "notion")
             (databases_query w kwargs) ;;
   lift (results <- py_get resp (s "results") (PList []) ;;
         pages <- py_iter results ;;
         tasks_of_pages pages)%py)%io.

(** The [properties] dictionary [notion_update_task] sends, [now] being the
    clock's reading. *)
Definition update_properties (now : pystr)
    (status progress blocker needs_attention : pyval)
  : result (list (pystr * pyval)) :=
  let properties :=
    [(s "Last Update", PDict [(s "date", PDict [(s "start", PStr now)])])] in
  let properties :=
    if truthy status
    then setitem (s "Status")
           (PDict [(s "select", PDict [(s "name", status)])]) properties
    else properties in
  (properties <-
     (if negb (is_None progress)
      then n <- py_int progress ;;
           Ok (setitem (s "Progress %") (PDict [(s "number", PInt n)])
                 properties)
      else Ok properties) ;;
   properties <-
     (if negb (is_None blocker)
      then b <- slice_to 1800 blocker ;;
           Ok (setitem (s "Blocker")
                 (PDict [(s "rich_text",
                          PList [PDict [(s "text",
                                         PDict [(s "content", b)])]])])
                 properties)
      else Ok properties) ;;
   let properties :=
     if negb (is_None needs_attention)
     then setitem (s "Needs Attention")
            (PDict [(s "checkbox", PBool (truthy needs_attention))])
            properties
     else properties in
   Ok properties)%py.

Definition notion_update_task
    (task_id status progress blocker needs_attention : pyval) : M unit :=
  (now <- read_clock (utcnow_isoformat w) ;;
   properties <- lift (update_properties now status progress blocker
                         needs_attention) ;;
   service (PagesUpdate task_id (PDict properties)) (s "notion")
     (pages_update w task_id (PDict properties)) ;;
   ret tt)%io.

(** ["".join(parts)]: every part must be a [str]. *)
Fixpoint join_texts (parts : list pyval) : result pystr :=
  match parts with
  | [] => Ok []
  | PStr x :: rest => (y <- join_texts rest ;; Ok (x ++ y))%py
  | _ :: _ => Raise TypeError
  end.

Fixpoint plain_texts (items : list pyval) : result (list pyval) :=
  match items with
  | [] => Ok []
  | r :: rest =>
      (x <- py_get r (s "plain_text") (PStr []) ;;
       xs <- plain_texts rest ;;
       Ok (x :: xs))%py
  end.

(** The text of the update log of a retrieved page ([""] when the page does
    not have the expected shape). *)
Definition current_log (page : pyval) : pystr :=
  try_except
    (p <- getitem_key page (s "properties") ;;
     u <- getitem_key p (s "Update Log") ;;
     rt <- getitem_key u (s "rich_text") ;;
     items <- py_iter rt ;;
     parts <- plain_texts items ;;
     join_texts parts)%py
    [].

(** The text [notion_append_log] stores: [next_text[:1800]]. *)
Definition next_log (current line : pystr) : pystr :=
  let next_text := strip (current ++ nl ++ line) in
  firstn 1800 next_text.

Definition log_properties (text : pystr) : pyval :=
  PDict [(s "Update Log",
          PDict [(s "rich_text",
                  PList [PDict [(s "text",
                                 PDict [(s "content", PStr text)])]])])].

Definition notion_append_log (task_id : pyval) (line : pystr) : M unit :=
  (page <- service (PagesRetrieve task_id) (s "notion")
             (pages_retrieve w task_id) ;;
   let current := current_log page in
   let properties := log_properties (next_log current line) in
   service (PagesUpdate task_id properties) (s "notion")
     (pages_update w task_id properties) ;;
   ret tt)%io.

(* ---------- AI parsing ---------- *)

(** The loop [for i, t in enumerate(tasks)] of [ai_parse_update], from
    index [i] on. *)
Fixpoint task_list_from (i : Z) (tasks : list Task) : list Candidate :=
  match tasks with
  | [] => []
  | t :: rest =>
      let letter := chr (65 + i) in
      {| letter := letter;
         c_id := t_id t;
         c_title := t_title t;
         c_status := t_status t;
         c_progress := t_progress t;
         c_due := t_due t |} :: task_list_from (i + 1) rest
  end.

(** The block "Basic sanity" of [ai_parse_update]: the record with its
    missing keys set to their defaults. *)
Definition basic_sanity (data : pyval) : result pyval :=
  (data <- py_setdefault data (s "task_id") PNone ;;
   data <- py_setdefault data (s "status") PNone ;;
   data <- py_setdefault data (s "progress") PNone ;;
   data <- py_setdefault data (s "blocker") PNone ;;
   data <- py_setdefault data (s "needs_attention") PNone ;;
   data <- py_setdefault data (s "confidence") (PFloat 0) ;;
   data <- py_setdefault data (s "followup") PNone ;;
   Ok data)%py.

Definition ai_parse_update (message : pystr) (tasks : list Task) : M pyval :=
  let task_list := task_list_from 0 tasks in
  (output_text <- service (ResponsesCreate message task_list) (s "openai")
                    (responses_create w message task_list) ;;
   data <- lift (match json_loads w output_text with
                 | Some v => Ok v
                 | None => Raise JSONDecodeError
                 end) ;;
   lift (basic_sanity data))%io.

(** The loop [for i, t in enumerate(tasks)] of [build_weekly_message], from
    index [i] on. *)
Fixpoint task_lines_from (i : Z) (tasks : list Task) : list pystr :=
  match tasks with
  | [] => []
  | t :: rest =>
      let letter := chr (65 + i) in
      let due := if truthy (t_due t)
                 then s " (Due " ++ py_str (t_due t) ++ s ")"
                 else [] in
      (letter ++ s ") " ++ py_str (t_title t) ++ due)
        :: task_lines_from (i + 1) rest
  end.

Definition build_weekly_message (week : pyval) (tasks : list Task) : pystr :=
  let lines := [s "Your tasks for " ++ py_str week ++ s ":"] in
  let lines := lines ++ task_lines_from 0 tasks in
  let lines := lines ++
    [ [];
      s "Reply like:";
      s "A done";
      s "B 60%";
      s "C blocked waiting on X";
      s "Or just type normally, I" ++ rsquo ++ s "ll parse it." ] in
  join nl lines.

(* ---------- Routes ---------- *)

(** The double nearest to the literal [0.7]. *)
Definition threshold : float := 0x1.6666666666666p-1%float.

(** [float(parsed.get("confidence") or 0.0)] *)
Definition confidence_of (parsed : pyval) : result float :=
  (c <- py_get parsed (s "confidence") PNone ;;
   py_float (py_or c (PFloat 0)))%py.

(** [twilio_inbound] from the point where [ai_parse_update] has returned
    [parsed] (from [confidence = ...] to the end of the handler). *)
Definition apply_parsed (member : Member) (body : pystr) (parsed : pyval)
  : M Response :=
  (confidence <- lift (confidence_of parsed) ;;
   followup <- lift (py_get parsed (s "followup") PNone) ;;
   if PrimFloat.ltb confidence threshold || truthy followup then
     let q := py_or followup (PStr (s "Which task is this for? Reply with A, B, C, or paste the task name.")) in
     lift (twiml q)
   else
   task_id <- lift (py_get parsed (s "task_id") PNone) ;;
   if negb (truthy task_id) then
     lift (twiml (PStr (s "I couldn" ++ rsquo ++ s "t match that to a task. Reply with A, B, C, or paste the task name.")))
   else
   status <- lift (py_get parsed (s "status") PNone) ;;
   progress <- lift (py_get parsed (s "progress") PNone) ;;
   blocker <- lift (py_get parsed (s "blocker") PNone) ;;
   needs_attention <- lift (py_get parsed (s "needs_attention") PNone) ;;
   (* Update Notion *)
   notion_update_task task_id status progress blocker needs_attention ;;
   now <- read_clock (utcnow_isoformat w) ;;
   notion_append_log task_id
     (now ++ s " | " ++ py_str (m_name member) ++ s ": " ++ body) ;;
   (* Reply tone *)
   if eq_str status (s "Done") then
     lift (twiml (PStr (s "Nice. Marked as Done and updated Notion.")))
   else if eq_str status (s "Blocked") then
     lift (twiml (PStr (s "Got it. Marked Blocked in Notion. What do you need to unblock?")))
   else
     lift (twiml (PStr (s "Got it. Updated Notion."))))%io.

(** [form_dict.get("From", "")] and [(form_dict.get("Body") or "").strip()] *)
Definition from_raw_of (form_dict : list (pystr * pystr)) : pystr :=
  match lookup (s "From") form_dict with Some v => v | None => [] end.

Definition body_of (form_dict : list (pystr * pystr)) : pystr :=
  strip (match lookup (s "Body") form_dict with
         | Some ((_ :: _) as v) => v
         | _ => []
         end).

Definition twilio_inbound (request : Request) : M Response :=
  let form_dict := form request in
  (require_twilio_signature request form_dict ;;
   let from_raw := from_raw_of form_dict in
   let body := body_of form_dict in
   let from_phone := normalize_phone from_raw in
   match body with
   | [] =>
       lift (twiml (PStr (s "Send an update like: 'done', '60%', or 'blocked waiting on X'.")))
   | _ :: _ =>
   member <- notion_find_member_by_phone (PStr from_phone) ;;
   match member with
   | None =>
       lift (twiml (PStr (s "I don" ++ rsquo ++ s "t recognize this number yet. Add it to the Team database in Notion under WhatsApp.")))
   | Some member =>
   week <- iso_week_key None ;;
   tasks <- notion_get_tasks_for_member_week (m_id member) (PStr week) ;;
   match tasks with
   | [] =>
       lift (twiml (PStr (s "No tasks found for you in " ++ week ++ s ". Ask your manager to assign tasks in Notion.")))
   | _ :: _ =>
   parsed <- ai_parse_update body tasks ;;
   apply_parsed member body parsed
   end end end)%io.

Definition send_weekly (request : Request) : M Response :=
  (* Simple shared secret so only you can trigger jobs *)
  let secret := header request (s "x-bot-secret") [] in
  if negb (str_eqb secret (getenv (s "BOT_SECRET"))) then
    raise (HTTPException 403 (s "Forbidden"))
  else
  (payload <- lift (match json_body request with
                    | Some v => Ok v
                    | None => Raise JSONDecodeError
                    end) ;;
   member_phone <- lift (py_get payload (s "to") PNone) ;;
   given <- lift (py_get payload (s "week") PNone) ;;
   week <- (if truthy given then ret given
            else k <- iso_week_key None ;; ret (PStr k)) ;;
   member <- notion_find_member_by_phone member_phone ;;
   match member with
   | None =>
       ret (Json (PDict [(s "ok", PBool false);
                         (s "error",
                          PStr (s "Member not found in Notion Team DB"))]))
   | Some member =>
   tasks <- notion_get_tasks_for_member_week (m_id member) week ;;
   let msg := build_weekly_message week tasks in
   ret (Json (PDict [(s "ok", PBool true);
                     (s "preview_message", PStr msg);
                     (s "tasks", PInt (Z.of_nat (List.length tasks)))]))
   end)%io.

End Source.

(* ================================================================== *)
(** ** Vocabulary of the properties *)
(* ================================================================== *)

(** [parsed.get(k)] on the dictionary [ai_parse_update] returns. *)
Definition field (parsed : pyval) (k : string) : pyval :=
  match parsed with
  | PDict kvs => match lookup (s k) kvs with Some v => v | None => PNone end
  | _ => PNone
  end.

(** Arguments of [notion_update_task] of the types its signature declares:
    [Optional[str]], [Optional[int]] and [Optional[bool]]. *)
Definition of_text (x : option pystr) : pyval :=
  match x with Some v => PStr v | None => PNone end.

Definition of_int (x : option Z) : pyval :=
  match x with Some v => PInt v | None => PNone end.

Definition of_bool (x : option bool) : pyval :=
  match x with Some v => PBool v | None => PNone end.

(** Modelled from the spec: the store's partial update by id, which is not
    part of the source ("partial-update-by-id": the properties named in the
    request replace the stored ones, every other stored property stays). *)
Definition partial_update (stored properties : list (pystr * pyval))
  : list (pystr * pyval) :=
  fold_right (fun kv acc => setitem (fst kv) (snd kv) acc) stored properties.

(** The values [notion_update_task] sends for its properties. *)
Definition date_value (now : pystr) : pyval :=
  PDict [(s "date", PDict [(s "start", PStr now)])].

Definition select_value (name : pyval) : pyval :=
  PDict [(s "select", PDict [(s "name", name)])].

Definition number_value (n : Z) : pyval :=
  PDict [(s "number", PInt n)].

Definition rich_text_value (content : pyval) : pyval :=
  PDict [(s "rich_text", PList [PDict [(s "text", PDict [(s "content", content)])]])].

Definition checkbox_value (b : bool) : pyval :=
  PDict [(s "checkbox", PBool b)].

(** The dictionary [notion_update_task] builds from arguments of the
    declared types. *)
Definition sent_properties (now : pystr) (status : option pystr)
    (progress : option Z) (blocker : option pystr)
    (needs_attention : option bool) : list (pystr * pyval) :=
  [(s "Last Update", date_value now)]
  ++ match status with
     | Some ((_ :: _) as name) => [(s "Status", select_value (PStr name))]
     | _ => []
     end
  ++ match progress with
     | Some n => [(s "Progress %", number_value n)]
     | None => []
     end
  ++ match blocker with
     | Some text => [(s "Blocker", rich_text_value (PStr (firstn 1800 text)))]
     | None => []
     end
  ++ match needs_attention with
     | Some b => [(s "Needs Attention", checkbox_value b)]
     | None => []
     end.

(** The replies of [twilio_inbound] after interpretation. *)
Definition default_question : pyval :=
  PStr (s "Which task is this for? Reply with A, B, C, or paste the task name.").

Definition confirmation (status : pyval) : pyval :=
  if eq_str status (s "Done") then
    PStr (s "Nice. Marked as Done and updated Notion.")
  else if eq_str status (s "Blocked") then
    PStr (s "Got it. Marked Blocked in Notion. What do you need to unblock?")
  else PStr (s "Got it. Updated Notion.").

(** The store writes among the calls made. *)
Definition is_write (c : call) : bool :=
  match c with PagesUpdate _ _ => true | _ => false end.

Definition writes (st : State) : list call := filter is_write (trace st).

Definition is_http (e : exn) : bool :=
  match e with HTTPException _ _ => true | _ => false end.

(** A computation that makes no call and does not read the clock. *)
Definition stateless {A} (m : M A) : Prop :=
  forall st r st', m st = (r, st') -> st' = st.

(** A computation that raises no [HTTPException]. *)
Definition benign {A} (m : M A) : Prop :=
  forall st e st', m st = (Raise e, st') -> is_http e = false.

Definition rbenign {A} (r : result A) : Prop :=
  forall e, r = Raise e -> is_http e = false.

Definition is_capital (label : pystr) : bool :=
  match label with
  | [c] => ((65 <=? c) && (c <=? 90))%N
  | _ => false
  end.

Section Reached.

Variable w : World.

(** The handler [twilio_inbound] on [request] gets as far as the task list:
    the signature check passes, the body is not empty, the sender is the
    member [member], and the week [week] has the tasks [tasks] (at least
    one); [st] is the state at that point. *)
Definition tasks_loaded (request : Request) (member : Member) (week : pystr)
    (tasks : list Task) (st : State) : Prop :=
  exists st1 st2 st3,
    require_twilio_signature w request (form request) initial = (Ok tt, st1)
    /\ body_of (form request) <> []
    /\ notion_find_member_by_phone w
         (PStr (normalize_phone (from_raw_of (form request)))) st1
       = (Ok (Some member), st2)
    /\ iso_week_key w None st2 = (Ok week, st3)
    /\ notion_get_tasks_for_member_week w (m_id member) (PStr week) st3
       = (Ok tasks, st)
    /\ tasks <> [].

(** ... and the interpreter returns the decision [parsed]. *)
Definition interpreted (request : Request) (member : Member) (week : pystr)
    (tasks : list Task) (parsed : pyval) (st : State) : Prop :=
  exists st0,
    tasks_loaded request member week tasks st0
    /\ ai_parse_update w (body_of (form request)) tasks st0 = (Ok parsed, st).

(** The calls made up to the interpretation. *)
Definition calls_before_decision (request : Request) (member : Member)
    (week : pystr) (tasks : list Task) : list call :=
  [DatabasesQuery
     (find_member_kwargs w
        (PStr (normalize_phone (from_raw_of (form request)))));
   DatabasesQuery (get_tasks_kwargs w (m_id member) (PStr week));
   ResponsesCreate (body_of (form request)) (task_list_from 0 tasks)].

(** The audit line [twilio_inbound] appends, the clock reading [now]. *)
Definition log_line (now : pystr) (member : Member) (body : pystr) : pystr :=
  now ++ s " | " ++ py_str w (m_name member) ++ s ": " ++ body.

End Reached.

(* ================================================================== *)
(** ** A sample deployment *)
(* ================================================================== *)

Module Sample.

(** A page of the team database and two pages of the task database, as the
    Notion client returns them. *)
Definition title_of (text : string) : pyval :=
  PDict [(s "title", PList [PDict [(s "plain_text", PStr (s text))]])].

Definition member_page : pyval :=
  PDict [(s "id", PStr (s "member-1"));
         (s "properties", PDict [(s "Name", title_of "Ann")])].

Definition task_page (page_id title : string) : pyval :=
  PDict [(s "id", PStr (s page_id));
         (s "properties",
          PDict [(s "Task", title_of title);
                 (s "Status", PDict [(s "select", PDict [(s "name", PStr (s "In Progress"))])]);
                 (s "Progress %", PDict [(s "number", PInt 20)]);
                 (s "Due Date", PDict [(s "date", PNone)])])].

Definition is_team_query (kwargs : pyval) : bool :=
  match kwargs with
  | PDict kvs => match lookup (s "page_size") kvs with
                 | Some _ => false
                 | None => true
                 end
  | _ => false
  end.

(** A page as [pages.retrieve] returns it, with the text [text] in its
    update log. *)
Definition page_with_log (text : pystr) : pyval :=
  PDict [(s "properties",
          PDict [(s "Update Log",
                  PDict [(s "rich_text",
                          PList [PDict [(s "plain_text", PStr text)]])])])].

(** A deployment with no Twilio token and no job secret, one known member
    with two tasks this week, a store that accepts every request and whose
    pages have the update log "started", and a model whose answer parses to
    [decision].  The parsers accept no text: the one text a sample hands to
    [float()] is "high", which [float()] refuses.  No sample formats a value
    that is not a text, so the choice of [repr] does not matter. *)
Definition world (answer : option pystr) (decision : option pyval) : World :=
  {| environ := [];
     float_of_str := fun _ => None;
     int_of_str := fun _ => None;
     json_loads := fun _ => decision;
     repr := fun _ => [];
     utcnow_isoformat := fun n =>
       s "2026-01-05T10:00:0" ++ str_of_Z (Z.of_nat n);
     today_isocalendar := fun _ =>
       {| iso_year := 2026; iso_week := 2; iso_weekday := 1 |};
     validate := fun _ _ _ _ => true;
     databases_query := fun kwargs =>
       if is_team_query kwargs
       then Some (PDict [(s "results", PList [member_page])])
       else Some (PDict [(s "results",
                          PList [task_page "task-1" "Write report";
                                 task_page "task-2" "Review budget"])]);
     pages_retrieve := fun _ => Some (page_with_log (s "started"));
     pages_update := fun _ _ => Some PNone;
     responses_create := fun _ _ => answer |}.

Definition message (text : string) : Request :=
  {| headers := [];
     url_scheme := s "https";
     url_path := s "/api/twilio/inbound";
     url_query := [];
     form := [(s "From", s "whatsapp:+14155552671"); (s "Body", s text)];
     json_body := None |}.

(** The same deployment with the stored update log [text]. *)
Definition with_log (text : pystr) (w : World) : World :=
  {| environ := environ w;
     float_of_str := float_of_str w;
     int_of_str := int_of_str w;
     json_loads := json_loads w;
     repr := repr w;
     utcnow_isoformat := utcnow_isoformat w;
     today_isocalendar := today_isocalendar w;
     validate := validate w;
     databases_query := databases_query w;
     pages_retrieve := fun _ => Some (page_with_log text);
     pages_update := pages_update w;
     responses_create := responses_create w |}.

(** The model answers, and its answer parses to the record [kvs]. *)
Definition deciding (kvs : list (pystr * pyval)) : World :=
  world (Some (s "(the model's output)")) (Some (PDict kvs)).

(** The defaults the interpreter adds to a record that has only the keys
    [task_id], [status], [progress] and [confidence]. *)
Definition defaults : list (pystr * pyval) :=
  [(s "blocker", PNone); (s "needs_attention", PNone); (s "followup", PNone)].

Definition ann : Member :=
  {| m_id := PStr (s "member-1"); m_name := PStr (s "Ann") |}.

Definition week : pystr := s "2026-W02".

Definition task (page_id title : string) : Task :=
  {| t_id := PStr (s page_id);
     t_title := PStr (s title);
     t_status := PStr (s "In Progress");
     t_progress := PInt 20;
     t_due := PNone |}.

Definition tasks : list Task :=
  [task "task-1" "Write report"; task "task-2" "Review budget"].

End Sample.


(* ================================================================== *)
(** ** The first version of the webhook ([main.py]) and the health route *)
(* ================================================================== *)

(** [health] of [api/index.py]. *)
Definition health (w : World) : M Response :=
  (week <- iso_week_key w None ;;
   ret (Json (PDict [(s "ok", PBool true); (s "week", PStr week)])))%io.

Module Main.

Definition twiml (msg : pyval) : result Response :=
  if truthy msg then
    match msg with
    | PStr _ => Ok (Twiml msg)
    | _ => Raise TypeError
    end
  else Ok (Twiml (PStr [])).

Definition health (w : World) : M Response :=
  (ts <- read_clock (utcnow_isoformat w) ;;
   ret (Json (PDict [(s "ok", PBool true); (s "ts", PStr ts)])))%io.

(** [inbound]; [url] is [str(request.url)]. *)
Definition inbound (w : World) (request : Request) (url : pystr)
  : M Response :=
  let form := form request in
  (* Verify Twilio signature in prod *)
  let sig := header request (s "x-twilio-signature") [] in
  ((match TWILIO_AUTH_TOKEN w, sig with
    | _ :: _, _ :: _ =>
        if negb (validate w (TWILIO_AUTH_TOKEN w) url form sig)
        then raise (HTTPException 403 (s "Invalid Twilio signature"))
        else ret tt
    | _, _ => ret tt
    end) ;;
   let body := body_of form in
   match body with
   | [] =>
       lift (twiml (PStr (s "Send an update like: done, 60%, or blocked waiting on X.")))
   | _ :: _ =>
       (* Replace this with Notion + AI logic next *)
       lift (twiml (PStr (s "Got it: " ++ body)))
   end)%io.

End Main.

(* ================================================================== *)
(** ** Vocabulary of the further properties *)
(* ================================================================== *)

(** A text of white space only. *)
Definition blank (x : pystr) : bool := forallb is_space x.

(** [old in x] *)
Fixpoint contains (x old : pystr) : bool :=
  match x with
  | [] => startswith [] old
  | _ :: x' => startswith x old || contains x' old
  end.

(** The text starts, or ends, with a character that is no white space. *)
Definition starts_with_text (x : pystr) : bool :=
  match x with
  | c :: _ => negb (is_space c)
  | [] => false
  end.

Definition ends_with_text (x : pystr) : bool := starts_with_text (rev x).

(** The keys the block "Basic sanity" sets. *)
Definition decision_keys : list pystr :=
  [s "task_id"; s "status"; s "progress"; s "blocker"; s "needs_attention";
   s "confidence"; s "followup"].

(** The defaults the block sets, in its order. *)
Definition decision_defaults : list (pystr * pyval) :=
  [(s "task_id", PNone); (s "status", PNone); (s "progress", PNone);
   (s "blocker", PNone); (s "needs_attention", PNone);
   (s "confidence", PFloat 0); (s "followup", PNone)].

(** The early replies of [twilio_inbound]. *)
Definition usage_hint : pyval :=
  PStr (s "Send an update like: 'done', '60%', or 'blocked waiting on X'.").

Definition not_recognized : pyval :=
  PStr (s "I don" ++ rsquo ++ s "t recognize this number yet. Add it to the Team database in Notion under WhatsApp.").

Definition could_not_match : pyval :=
  PStr (s "I couldn" ++ rsquo ++
        s "t match that to a task. Reply with A, B, C, or paste the task name.").

Definition no_tasks_found (week : pystr) : pyval :=
  PStr (s "No tasks found for you in " ++ week ++ s ". Ask your manager to assign tasks in Notion.").

(** The text of a title property: the [plain_text] of its first item when
    that is set and truthy, and [default] in every other case. *)
Definition title_text (title : pyval) (default : string) : pyval :=
  match title with
  | PList (PDict item :: _) =>
      match lookup (s "plain_text") item with
      | Some v => if truthy v then v else PStr (s default)
      | None => PStr (s default)
      end
  | _ => PStr (s default)
  end.

(** The signature check rejects the request: the token is configured, the
    request carries a signature, and the validator refuses it for [url]. *)
Definition signature_refused (w : World) (request : Request) (url : pystr)
  : bool :=
  match TWILIO_AUTH_TOKEN w, header request (s "x-twilio-signature") [] with
  | _ :: _, _ :: _ =>
      negb (validate w (TWILIO_AUTH_TOKEN w) url (form request)
              (header request (s "x-twilio-signature") []))
  | _, _ => false
  end.

(** The decision lets the handler write: its confidence is not below the
    threshold, it has no follow-up, and it names a task. *)
Definition confident (w : World) (parsed : pyval) : Prop :=
  exists c,
    confidence_of w parsed = Ok c
    /\ PrimFloat.ltb c threshold = false
    /\ truthy (field parsed "followup") = false
    /\ truthy (field parsed "task_id") = true.

Module Scenario.

(** A deployment like [Sample.world] whose services answer as given: the
    two queries, the page read, the two kinds of page update (told apart by
    the property [Update Log]), and the model. *)
Definition is_log_update (properties : pyval) : bool :=
  match properties with
  | PDict kvs => match lookup (s "Update Log") kvs with
                 | Some _ => true
                 | None => false
                 end
  | _ => false
  end.

Definition world (token : pystr) (valid : bool)
    (team tasks page field_update log_update : option pyval)
    (answer : option pystr) (decision : option pyval) : World :=
  {| environ := match token with
                | [] => []
                | _ => [(s "TWILIO_AUTH_TOKEN", token)]
                end;
     float_of_str := fun _ => None;
     int_of_str := fun _ => None;
     json_loads := fun _ => decision;
     repr := fun _ => [];
     utcnow_isoformat := fun n =>
       s "2026-01-05T10:00:0" ++ str_of_Z (Z.of_nat n);
     today_isocalendar := fun _ =>
       {| iso_year := 2026; iso_week := 2; iso_weekday := 1 |};
     validate := fun _ _ _ _ => valid;
     databases_query := fun kwargs =>
       if Sample.is_team_query kwargs then team else tasks;
     pages_retrieve := fun _ => page;
     pages_update := fun _ properties =>
       if is_log_update properties then log_update else field_update;
     responses_create := fun _ _ => answer |}.

Definition results (pages : list pyval) : option pyval :=
  Some (PDict [(s "results", PList pages)]).

Definition one_member : option pyval := results [Sample.member_page].

Definition two_tasks : option pyval :=
  results [Sample.task_page "task-1" "Write report";
           Sample.task_page "task-2" "Review budget"].

(** The decision "task-1 is done", with confidence 0.75. *)
Definition done : list (pystr * pyval) :=
  [(s "task_id", PStr (s "task-1"));
   (s "status", PStr (s "Done"));
   (s "progress", PInt 100);
   (s "confidence", PFloat 0.75)].

(** A request signed with [sig]. *)
Definition signed (sig : string) (text : string) : Request :=
  {| headers := [(s "x-twilio-signature", s sig); (s "host", s "bot.example")];
     url_scheme := s "https";
     url_path := s "/api/twilio/inbound";
     url_query := [];
     form := [(s "From", s "whatsapp:+14155552671"); (s "Body", s text)];
     json_body := None |}.

(** A request to the weekly trigger with the JSON body [payload]. *)
Definition trigger (payload : pyval) : Request :=
  {| headers := [];
     url_scheme := s "https";
     url_path := s "/api/jobs/send_weekly";
     url_query := [];
     form := [];
     json_body := Some payload |}.

End Scenario.

(* ================================================================== *)
(** ** The helpers on examples *)
(* ================================================================== *)

Example normalize_phone_whatsapp :
  normalize_phone (s "whatsapp:+14155552671 ") = s "+14155552671".
Proof. reflexivity. Qed.

Example strip_both_ends : strip (s "  60% done " ++ nl) = s "60% done".
Proof. reflexivity. Qed.

Example replace_every_occurrence :
  replace (s "aXYbXYc") (s "XY") (s "-") = s "a-b-c".
Proof. reflexivity. Qed.

Example get_full_url_behind_proxy :
  get_full_url
    {| headers := [(s "x-forwarded-proto", s "https");
                   (s "host", s "bot.example")];
       url_scheme := s "http";
       url_path := s "/api/twilio/inbound";
       url_query := s "a=1";
       form := [];
       json_body := None |}
  = s "https://bot.example/api/twilio/inbound?a=1".
Proof. reflexivity. Qed.

Example iso_week_key_of_date :
  fst (iso_week_key (Sample.world None None)
         (Some {| iso_year := 2026; iso_week := 45; iso_weekday := 3 |})
         initial)
  = Ok (s "2026-W45").
Proof. reflexivity. Qed.

Example safe_text_of_title :
  safe_text (PList [PDict [(s "plain_text", PStr (s "Ann"))]]) = PStr (s "Ann")
  /\ safe_text (PList []) = PStr []
  /\ safe_text PNone = PStr [].
Proof. repeat split. Qed.

Example build_weekly_message_of_two :
  build_weekly_message (Sample.world None None) (PStr Sample.week)
    [Sample.task "task-1" "Write report";
     {| t_id := PStr (s "task-2");
        t_title := PStr (s "Review budget");
        t_status := PNone;
        t_progress := PNone;
        t_due := PStr (s "2026-01-09") |}]
  = join nl [s "Your tasks for 2026-W02:";
             s "A) Write report";
             s "B) Review budget (Due 2026-01-09)";
             [];
             s "Reply like:";
             s "A done";
             s "B 60%";
             s "C blocked waiting on X";
             s "Or just type normally, I" ++ rsquo ++ s "ll parse it."].
Proof. reflexivity. Qed.

(** An empty body is answered with the usage hint before any call. *)
Example empty_body_gets_usage_hint :
  twilio_inbound (Sample.world None None) (Sample.message "   ") initial =
  (Ok (Twiml (PStr (s "Send an update like: 'done', '60%', or 'blocked waiting on X'."))),
   initial).
Proof. reflexivity. Qed.

Example twiml_of_text :
  twiml (PStr (s "Got it. Updated Notion.")) =
  Ok (Twiml (PStr (s "Got it. Updated Notion."))).
Proof. reflexivity. Qed.

Example twiml_of_number : twiml (PInt 5) = Raise TypeError.
Proof. reflexivity. Qed.

Example twiml_of_nothing : twiml PNone = Ok (Twiml (PStr [])).
Proof. reflexivity. Qed.

(** [twiml] on a text that is not empty. *)
Lemma twiml_text (c : N) (x : pystr) :
  twiml (PStr (c :: x)) = Ok (Twiml (PStr (c :: x))).
Proof. reflexivity. Qed.

(* ================================================================== *)
(** ** Strings and dictionaries *)
(* ================================================================== *)

Lemma str_eqb_refl (a : pystr) : str_eqb a a = true.
Proof.
  induction a as [|c a IH]; simpl; [reflexivity|].
  now rewrite N.eqb_refl, IH.
Qed.

Lemma str_eqb_eq (a b : pystr) : str_eqb a b = true <-> a = b.
Proof.
  split.
  - revert b. induction a as [|c a IH]; intros [|d b] H; simpl in H;
      try discriminate; [reflexivity|].
    apply andb_true_iff in H. destruct H as [Hc Hr].
    apply N.eqb_eq in Hc. apply IH in Hr. now subst.
  - intros ->. apply str_eqb_refl.
Qed.

Lemma str_eqb_neq (a b : pystr) : str_eqb a b = false <-> a <> b.
Proof.
  split.
  - intros H E. apply str_eqb_eq in E. congruence.
  - intros H. destruct (str_eqb a b) eqn:E; [|reflexivity].
    apply str_eqb_eq in E. contradiction.
Qed.

Lemma lookup_setitem (k k' : pystr) (v : pyval) (kvs : list (pystr * pyval)) :
  lookup k' (setitem k v kvs) = if str_eqb k' k then Some v else lookup k' kvs.
Proof.
  induction kvs as [|[k0 v0] rest IH]; simpl.
  - reflexivity.
  - destruct (str_eqb k k0) eqn:E; simpl.
    + apply str_eqb_eq in E. subst k0.
      destruct (str_eqb k' k); reflexivity.
    + destruct (str_eqb k' k0) eqn:E0.
      * apply str_eqb_eq in E0. subst k0.
        destruct (str_eqb k' k) eqn:E1; [|reflexivity].
        apply str_eqb_eq in E1. subst k'. rewrite str_eqb_refl in E. discriminate.
      * exact IH.
Qed.

Lemma lookup_app {V} (k : pystr) (l1 l2 : list (pystr * V)) :
  lookup k (l1 ++ l2) =
  match lookup k l1 with Some v => Some v | None => lookup k l2 end.
Proof.
  induction l1 as [|[k0 v0] rest IH]; simpl; [reflexivity|].
  destruct (str_eqb k k0); [reflexivity|exact IH].
Qed.

(** A partial update changes the properties of the request and no other. *)
Lemma lookup_partial_update (k : pystr) (stored properties : list (pystr * pyval)) :
  lookup k (partial_update stored properties) =
  match lookup k properties with
  | Some v => Some v
  | None => lookup k stored
  end.
Proof.
  induction properties as [|[k0 v0] rest IH]; simpl; [reflexivity|].
  rewrite lookup_setitem. destruct (str_eqb k k0); [reflexivity|exact IH].
Qed.

Lemma py_get_field (parsed : pyval) (kvs : list (pystr * pyval)) (k : string) :
  parsed = PDict kvs -> py_get parsed (s k) PNone = Ok (field parsed k).
Proof. intros ->. reflexivity. Qed.

(* ================================================================== *)
(** ** Floats *)
(* ================================================================== *)

Lemma SFcompare_antisym (x y : spec_float) :
  SFcompare y x = option_map CompOpp (SFcompare x y).
Proof.
  destruct x as [sx|sx| |sx mx ex], y as [sy|sy| |sy my ey]; simpl;
    try reflexivity;
    try (destruct sx; reflexivity); try (destruct sy; reflexivity);
    try (destruct sx, sy; reflexivity).
  destruct sx, sy; simpl; try reflexivity;
    rewrite (Z.compare_antisym ex ey); destruct (ex ?= ey)%Z; simpl;
    try reflexivity;
    change (PosDef.Pos.compare_cont Eq my mx) with (Pos.compare_cont Eq my mx);
    change (PosDef.Pos.compare_cont Eq mx my) with (Pos.compare_cont Eq mx my);
    rewrite (Pos.compare_cont_antisym mx my Eq); reflexivity.
Qed.

(** [x <= y] excludes [y < x]. *)
Lemma leb_ltb_false (x y : float) :
  PrimFloat.leb x y = true -> PrimFloat.ltb y x = false.
Proof.
  rewrite leb_spec, ltb_spec. unfold SFleb, SFltb.
  rewrite (SFcompare_antisym (Prim2SF x) (Prim2SF y)).
  destruct (SFcompare (Prim2SF x) (Prim2SF y)) as [[ | | ]|]; simpl; congruence.
Qed.

(* ================================================================== *)
(** ** The monad: computations that leave the state alone *)
(* ================================================================== *)

Lemma stateless_ret {A} (a : A) : stateless (ret a).
Proof. intros st r st' H. now inversion H. Qed.

Lemma stateless_raise {A} (e : exn) : stateless (@raise A e).
Proof. intros st r st' H. now inversion H. Qed.

Lemma stateless_lift {A} (r : result A) : stateless (lift r).
Proof. intros st r' st' H. now inversion H. Qed.

Lemma stateless_bind {A B} (m : M A) (k : A -> M B) :
  stateless m -> (forall a, stateless (k a)) -> stateless (bind m k).
Proof.
  intros Hm Hk st r st' H. unfold bind in H.
  destruct (m st) as [[a|e] st1] eqn:E.
  - apply Hm in E. subst st1. now apply Hk in H.
  - apply Hm in E. inversion H. now subst.
Qed.

Ltac stateless :=
  repeat first
    [ apply stateless_ret
    | apply stateless_raise
    | apply stateless_lift
    | apply stateless_bind; [|intros]
    | match goal with
      | |- stateless (if ?b then _ else _) => destruct b
      | |- stateless (match ?x with _ => _ end) => destruct x
      end ].

(** A service call followed by a computation that makes none: the state
    afterwards has the one call more. *)
Lemma service_then_stateless {A B} c name (answer : option A) (k : A -> M B)
    st r st' :
  (forall a, stateless (k a)) ->
  bind (service c name answer) k st = (r, st') -> st' = log c st.
Proof.
  intros Hk H. unfold bind, service in H. destruct answer as [a|].
  - now apply Hk in H.
  - now inversion H.
Qed.

Lemma bind_lift {A B} (r : result A) (k : A -> M B) (st : State) :
  bind (lift r) k st =
  match r with Ok a => k a st | Raise e => (Raise e, st) end.
Proof. unfold bind, lift. destruct r; reflexivity. Qed.

Lemma bind_ok {A B} (m : M A) (k : A -> M B) st a st' :
  m st = (Ok a, st') -> bind m k st = k a st'.
Proof. intros H. unfold bind. now rewrite H. Qed.

(* ================================================================== *)
(** ** The handler up to the interpretation *)
(* ================================================================== *)

Section Handler.

Variable w : World.

Lemma require_twilio_signature_stateless request f :
  stateless (require_twilio_signature w request f).
Proof. unfold require_twilio_signature. stateless. Qed.

Lemma notion_find_member_by_phone_state phone st r st' :
  notion_find_member_by_phone w phone st = (r, st') ->
  st' = log (DatabasesQuery (find_member_kwargs w phone)) st.
Proof.
  unfold notion_find_member_by_phone. apply service_then_stateless.
  intros resp. stateless.
Qed.

Lemma iso_week_key_today_state st r st' :
  iso_week_key w None st = (r, st') -> st' = tick st.
Proof.
  unfold iso_week_key, bind, read_clock, ret. intros H. now inversion H.
Qed.

Lemma notion_get_tasks_for_member_week_state member_id week st r st' :
  notion_get_tasks_for_member_week w member_id week st = (r, st') ->
  st' = log (DatabasesQuery (get_tasks_kwargs w member_id week)) st.
Proof.
  unfold notion_get_tasks_for_member_week. apply service_then_stateless.
  intros resp. stateless.
Qed.

Lemma ai_parse_update_state message tasks st r st' :
  ai_parse_update w message tasks st = (r, st') ->
  st' = log (ResponsesCreate message (task_list_from 0 tasks)) st.
Proof.
  unfold ai_parse_update. apply service_then_stateless.
  intros text. stateless.
Qed.

Lemma py_setdefault_dict d k v d' :
  py_setdefault d k v = Ok d' -> exists kvs, d' = PDict kvs.
Proof.
  destruct d; simpl; try discriminate.
  intros H. inversion H. eauto.
Qed.

Lemma basic_sanity_dict data d :
  basic_sanity data = Ok d -> exists kvs, d = PDict kvs.
Proof.
  unfold basic_sanity, rbind. intros H.
  repeat match type of H with
         | match ?x with _ => _ end = _ => destruct x eqn:?; try discriminate
         end.
  inversion H. subst.
  match goal with E : py_setdefault _ (s "followup") _ = Ok _ |- _ =>
    exact (py_setdefault_dict _ _ _ E) end.
Qed.

(** The decision [ai_parse_update] returns is a dictionary. *)
Lemma ai_parse_update_dict message tasks st parsed st' :
  ai_parse_update w message tasks st = (Ok parsed, st') ->
  exists kvs, parsed = PDict kvs.
Proof.
  unfold ai_parse_update, bind, service, lift. intros H.
  destruct (responses_create w message (task_list_from 0 tasks));
    [|discriminate].
  destruct (json_loads w p); [|discriminate].
  inversion H. eapply basic_sanity_dict; eassumption.
Qed.

Lemma tasks_loaded_state request member week tasks st :
  tasks_loaded w request member week tasks st ->
  st = {| trace :=
            [DatabasesQuery
               (find_member_kwargs w
                  (PStr (normalize_phone (from_raw_of (form request)))));
             DatabasesQuery (get_tasks_kwargs w (m_id member) (PStr week))];
          ticks := 1 |}.
Proof.
  intros (st1 & st2 & st3 & Hsig & _ & Hm & Hw & Ht & _).
  apply require_twilio_signature_stateless in Hsig.
  apply notion_find_member_by_phone_state in Hm.
  apply iso_week_key_today_state in Hw.
  apply notion_get_tasks_for_member_week_state in Ht.
  subst. reflexivity.
Qed.

Lemma interpreted_state request member week tasks parsed st :
  interpreted w request member week tasks parsed st ->
  st = {| trace := calls_before_decision w request member week tasks;
          ticks := 1 |}.
Proof.
  intros (st0 & Hl & Hp).
  apply tasks_loaded_state in Hl. apply ai_parse_update_state in Hp.
  subst. reflexivity.
Qed.

(** From the task list on, [twilio_inbound] is the interpretation followed
    by [apply_parsed]. *)
Lemma twilio_inbound_tasks_loaded request member week tasks st :
  tasks_loaded w request member week tasks st ->
  twilio_inbound w request initial =
  bind (ai_parse_update w (body_of (form request)) tasks)
       (apply_parsed w member (body_of (form request))) st.
Proof.
  intros (st1 & st2 & st3 & Hsig & Hbody & Hm & Hw & Ht & Hne).
  unfold twilio_inbound, bind. cbv zeta.
  rewrite Hsig.
  destruct (body_of (form request)) as [|c body] eqn:Eb; [contradiction|].
  rewrite Hm, Hw, Ht.
  destruct tasks as [|t tasks]; [contradiction|]. reflexivity.
Qed.

Lemma twilio_inbound_interpreted request member week tasks parsed st :
  interpreted w request member week tasks parsed st ->
  twilio_inbound w request initial =
  apply_parsed w member (body_of (form request)) parsed st.
Proof.
  intros (st0 & Hl & Hp).
  rewrite (twilio_inbound_tasks_loaded Hl). now apply bind_ok.
Qed.

End Handler.

(* ================================================================== *)
(** ** The orchestrator: CLARIFY, APPLIED and failures of the scoring step *)
(* ================================================================== *)

(** Runs a handler of a sample deployment up to the point a predicate
    describes. *)
Ltac reach :=
  repeat match goal with
         | |- interpreted _ _ _ _ _ _ _ => eexists; split
         | |- tasks_loaded _ _ _ _ _ _ => do 3 eexists; repeat split
         | |- _ <> _ => discriminate
         | |- _ = _ => reflexivity
         end.

(** C2, amended. When the decision has a confidence below 0.7 or a follow-up
    question (a truthy follow-up), whatever its other fields, the handler
    makes no write to the store and no log append: the only calls made are
    the two queries and the scoring call.  If [float()] converts the
    confidence, the handler reaches CLARIFY and replies with the follow-up
    when that is a non-empty text and with the fixed question when there is
    none; a follow-up that is present but is not a text ends the handler
    with [TypeError], and a confidence [float()] does not convert ends it
    with the exception of [float()], in both cases without a reply. *)
Theorem clarify_on_low_confidence_or_followup
    (w : World) (request : Request) (member : Member) (week : pystr)
    (tasks : list Task) (parsed : pyval) (st : State) :
  interpreted w request member week tasks parsed st ->
  (exists c, confidence_of w parsed = Ok c /\ PrimFloat.ltb c threshold = true)
  \/ truthy (field parsed "followup") = true ->
  exists r,
    twilio_inbound w request initial =
      (r, {| trace := calls_before_decision w request member week tasks;
             ticks := 1 |})
    /\ writes {| trace := calls_before_decision w request member week tasks;
                 ticks := 1 |} = []
    /\ r = match confidence_of w parsed with
           | Raise e => Raise e
           | Ok _ =>
               match field parsed "followup" with
               | PStr [] => Ok (Twiml default_question)
               | PStr (c :: text) => Ok (Twiml (PStr (c :: text)))
               | v => if truthy v then Raise TypeError
                      else Ok (Twiml default_question)
               end
           end.
Proof.
  intros Hi Hlow.
  rewrite (twilio_inbound_interpreted Hi).
  pose proof (interpreted_state Hi) as Hst.
  destruct Hi as (st0 & _ & Hp).
  destruct (ai_parse_update_dict _ _ _ _ Hp) as [kvs Hk].
  unfold apply_parsed. rewrite bind_lift.
  destruct (confidence_of w parsed) as [c|e] eqn:Hc.
  - rewrite bind_lift, (py_get_field "followup" Hk).
    assert (Hb : PrimFloat.ltb c threshold || truthy (field parsed "followup")
                 = true).
    { destruct Hlow as [(c' & Hc' & H)|H].
      - inversion Hc'. subst c'. now rewrite H.
      - rewrite H. apply orb_true_r. }
    rewrite Hb. rewrite Hst.
    unfold lift, twiml, py_or, default_question.
    destruct (field parsed "followup") as [|b|z|f|x|l|d] eqn:Hf; cbn [truthy].
    + eexists. repeat split.
    + destruct b; eexists; repeat split.
    + destruct (z =? 0)%Z eqn:E; cbn [negb truthy]; rewrite ?E;
        eexists; repeat split.
    + destruct (PrimFloat.eqb f 0) eqn:E; cbn [negb truthy]; rewrite ?E;
        eexists; repeat split.
    + destruct x; eexists; repeat split.
    + destruct l; eexists; repeat split.
    + destruct d; eexists; repeat split.
  - rewrite Hst. eexists. repeat split.
Qed.

Lemma clarify_on_low_confidence_or_followup_witness :
  exists r,
    twilio_inbound
      (Sample.deciding [(s "task_id", PStr (s "task-1"));
                        (s "confidence", PFloat 0.5);
                        (s "followup", PStr (s "Report or budget?"))])
      (Sample.message "finished it") initial =
    (r, {| trace :=
             calls_before_decision
               (Sample.deciding [(s "task_id", PStr (s "task-1"));
                                 (s "confidence", PFloat 0.5);
                                 (s "followup", PStr (s "Report or budget?"))])
               (Sample.message "finished it") Sample.ann Sample.week
               Sample.tasks;
           ticks := 1 |})
    /\ writes {| trace :=
                   calls_before_decision
                     (Sample.deciding
                        [(s "task_id", PStr (s "task-1"));
                         (s "confidence", PFloat 0.5);
                         (s "followup", PStr (s "Report or budget?"))])
                     (Sample.message "finished it") Sample.ann Sample.week
                     Sample.tasks;
                 ticks := 1 |} = []
    /\ r = Ok (Twiml (PStr (s "Report or budget?"))).
Proof.
  refine (@clarify_on_low_confidence_or_followup
            (Sample.deciding [(s "task_id", PStr (s "task-1"));
                              (s "confidence", PFloat 0.5);
                              (s "followup", PStr (s "Report or budget?"))])
            (Sample.message "finished it") Sample.ann Sample.week
            Sample.tasks
            (PDict [(s "task_id", PStr (s "task-1"));
                    (s "confidence", PFloat 0.5);
                    (s "followup", PStr (s "Report or budget?"));
                    (s "status", PNone); (s "progress", PNone);
                    (s "blocker", PNone); (s "needs_attention", PNone)])
            _ _ _).
  - reach.
  - left. exists 0.5%float. split; reflexivity.
Defined.

(** C2 as stated fails on decisions that are not of the documented types.
    With confidence 0.5 and the follow-up [5] the handler ends with
    [TypeError], and with the confidence ["high"] and a follow-up text it
    ends with [ValueError]: in both cases the decision is one the claim
    covers, and no reply is returned. *)
Lemma no_clarify_reply_for_untyped_decision :
  (let w := Sample.deciding [(s "confidence", PFloat 0.5);
                             (s "followup", PInt 5)] in
   let request := Sample.message "finished it" in
   let parsed := PDict [(s "confidence", PFloat 0.5);
                        (s "followup", PInt 5);
                        (s "task_id", PNone); (s "status", PNone);
                        (s "progress", PNone); (s "blocker", PNone);
                        (s "needs_attention", PNone)] in
   let st := {| trace := calls_before_decision w request Sample.ann
                           Sample.week Sample.tasks;
                ticks := 1 |} in
   interpreted w request Sample.ann Sample.week Sample.tasks parsed st
   /\ confidence_of w parsed = Ok 0.5%float
   /\ PrimFloat.ltb 0.5 threshold = true
   /\ field parsed "followup" = PInt 5
   /\ twilio_inbound w request initial = (Raise TypeError, st))
  /\
  (let w := Sample.deciding [(s "confidence", PStr (s "high"));
                             (s "followup", PStr (s "Report or budget?"))] in
   let request := Sample.message "finished it" in
   let parsed := PDict [(s "confidence", PStr (s "high"));
                        (s "followup", PStr (s "Report or budget?"));
                        (s "task_id", PNone); (s "status", PNone);
                        (s "progress", PNone); (s "blocker", PNone);
                        (s "needs_attention", PNone)] in
   let st := {| trace := calls_before_decision w request Sample.ann
                           Sample.week Sample.tasks;
                ticks := 1 |} in
   interpreted w request Sample.ann Sample.week Sample.tasks parsed st
   /\ field parsed "followup" = PStr (s "Report or budget?")
   /\ confidence_of w parsed = Raise ValueError
   /\ twilio_inbound w request initial = (Raise ValueError, st)).
Proof.
  cbv zeta. repeat split; try reflexivity; reach.
Qed.

(** What [notion_update_task] does when the conversions of its arguments
    succeed: one reading of the clock and one call to the store. *)
Lemma notion_update_task_run (w : World)
    (task_id status progress blocker needs_attention : pyval)
    (properties : list (pystr * pyval)) (st : State) :
  update_properties w (utcnow_isoformat w (ticks st)) status progress blocker
    needs_attention = Ok properties ->
  notion_update_task w task_id status progress blocker needs_attention st =
  (match pages_update w task_id (PDict properties) with
   | Some _ => Ok tt
   | None => Raise (ServiceError (s "notion"))
   end,
   log (PagesUpdate task_id (PDict properties)) (tick st)).
Proof.
  intros Hp. unfold notion_update_task, bind, read_clock, lift, service, ret.
  rewrite Hp. destruct (pages_update w task_id (PDict properties)); reflexivity.
Qed.

(** What [notion_append_log] does: it reads the page, and if that succeeds
    it writes the log text back. *)
Lemma notion_append_log_run (w : World) (task_id : pyval) (line : pystr)
    (st : State) :
  notion_append_log w task_id line st =
  match pages_retrieve w task_id with
  | None => (Raise (ServiceError (s "notion")), log (PagesRetrieve task_id) st)
  | Some page =>
      let properties := log_properties (next_log (current_log page) line) in
      (match pages_update w task_id properties with
       | Some _ => Ok tt
       | None => Raise (ServiceError (s "notion"))
       end,
       log (PagesUpdate task_id properties) (log (PagesRetrieve task_id) st))
  end.
Proof.
  unfold notion_append_log, bind, service, ret.
  destruct (pages_retrieve w task_id) as [page|]; [|reflexivity].
  cbv zeta.
  destruct (pages_update w task_id _); reflexivity.
Qed.

(** C1, amended. When the decision has confidence at least 0.7, no follow-up
    question, a non-empty task id, and progress and blocker values that
    [int()] and [[:1800]] accept, and the store accepts the requests, the
    handler reaches APPLIED: after the two queries and the scoring call it
    makes exactly one field update, then one log append (the page is read and
    its log written back), both for the selected task, and replies with the
    confirmation for the status. *)
Theorem applied_on_confident_decision
    (w : World) (request : Request) (member : Member) (week : pystr)
    (tasks : list Task) (parsed : pyval) (st : State) (c : float)
    (properties : list (pystr * pyval)) (page answer1 answer2 : pyval) :
  interpreted w request member week tasks parsed st ->
  confidence_of w parsed = Ok c ->
  PrimFloat.leb threshold c = true ->
  truthy (field parsed "followup") = false ->
  truthy (field parsed "task_id") = true ->
  update_properties w (utcnow_isoformat w 1) (field parsed "status")
    (field parsed "progress") (field parsed "blocker")
    (field parsed "needs_attention") = Ok properties ->
  pages_update w (field parsed "task_id") (PDict properties) = Some answer1 ->
  pages_retrieve w (field parsed "task_id") = Some page ->
  pages_update w (field parsed "task_id")
    (log_properties
       (next_log (current_log page)
          (log_line w (utcnow_isoformat w 2) member
             (body_of (form request))))) = Some answer2 ->
  twilio_inbound w request initial =
    (Ok (Twiml (confirmation (field parsed "status"))),
     {| trace :=
          calls_before_decision w request member week tasks ++
          [PagesUpdate (field parsed "task_id") (PDict properties);
           PagesRetrieve (field parsed "task_id");
           PagesUpdate (field parsed "task_id")
             (log_properties
                (next_log (current_log page)
                   (log_line w (utcnow_isoformat w 2) member
                      (body_of (form request)))))];
        ticks := 3 |}).
Proof.
  intros Hi Hc Hge Hf Ht Hp Hu1 Hr Hu2.
  rewrite (twilio_inbound_interpreted Hi).
  pose proof (interpreted_state Hi) as Hst.
  destruct Hi as (st0 & _ & Hparse).
  destruct (ai_parse_update_dict _ _ _ _ Hparse) as [kvs Hk].
  unfold apply_parsed.
  rewrite bind_lift, Hc, bind_lift, (py_get_field "followup" Hk).
  rewrite (leb_ltb_false Hge), Hf. cbn [orb].
  rewrite bind_lift, (py_get_field "task_id" Hk), Ht. cbn [negb].
  rewrite bind_lift, (py_get_field "status" Hk).
  rewrite bind_lift, (py_get_field "progress" Hk).
  rewrite bind_lift, (py_get_field "blocker" Hk).
  rewrite bind_lift, (py_get_field "needs_attention" Hk).
  subst st.
  unfold bind at 1. erewrite notion_update_task_run by exact Hp.
  rewrite Hu1.
  unfold bind at 1. unfold read_clock at 1.
  unfold bind at 1. rewrite notion_append_log_run.
  cbn [ticks log tick trace].
  unfold log_line in Hu2. rewrite Hr. cbv zeta. rewrite Hu2.
  unfold confirmation, ret, twiml, log, tick. cbn [trace ticks].
  rewrite <- app_assoc. cbn [app].
  destruct (eq_str (field parsed "status") (s "Done")); [reflexivity|].
  destruct (eq_str (field parsed "status") (s "Blocked")); reflexivity.
Qed.

Lemma applied_on_confident_decision_witness :
  twilio_inbound
    (Sample.deciding [(s "task_id", PStr (s "task-1"));
                      (s "status", PStr (s "Done"));
                      (s "progress", PInt 100);
                      (s "confidence", PFloat 0.75)])
    (Sample.message "finished the report") initial =
  (Ok (Twiml (PStr (s "Nice. Marked as Done and updated Notion."))),
   {| trace :=
        calls_before_decision
          (Sample.deciding [(s "task_id", PStr (s "task-1"));
                            (s "status", PStr (s "Done"));
                            (s "progress", PInt 100);
                            (s "confidence", PFloat 0.75)])
          (Sample.message "finished the report") Sample.ann Sample.week
          Sample.tasks ++
        [PagesUpdate (PStr (s "task-1"))
           (PDict [(s "Last Update", date_value (s "2026-01-05T10:00:01"));
                   (s "Status", select_value (PStr (s "Done")));
                   (s "Progress %", number_value 100)]);
         PagesRetrieve (PStr (s "task-1"));
         PagesUpdate (PStr (s "task-1"))
           (log_properties
              (s "started" ++ nl ++
               s "2026-01-05T10:00:02 | Ann: finished the report"))];
      ticks := 3 |}).
Proof.
  refine (@applied_on_confident_decision
            (Sample.deciding [(s "task_id", PStr (s "task-1"));
                              (s "status", PStr (s "Done"));
                              (s "progress", PInt 100);
                              (s "confidence", PFloat 0.75)])
            (Sample.message "finished the report") Sample.ann Sample.week
            Sample.tasks
            (PDict ([(s "task_id", PStr (s "task-1"));
                     (s "status", PStr (s "Done"));
                     (s "progress", PInt 100);
                     (s "confidence", PFloat 0.75)] ++ Sample.defaults))
            _ 0.75%float
            [(s "Last Update", date_value (s "2026-01-05T10:00:01"));
             (s "Status", select_value (PStr (s "Done")));
             (s "Progress %", number_value 100)]
            (Sample.page_with_log (s "started"))
            PNone PNone _ _ _ _ _ _ _ _ _).
  - reach.
  - reflexivity.
  - reflexivity.
  - reflexivity.
  - reflexivity.
  - reflexivity.
  - reflexivity.
  - reflexivity.
  - reflexivity.
Defined.


(** C1 as stated fails: a decision with confidence 0.75, no follow-up and
    the non-null task id [""] is answered with the "couldn't match" reply,
    and nothing is written to the store. *)
Lemma applied_needs_nonempty_task_id :
  let w := Sample.deciding [(s "task_id", PStr []);
                            (s "status", PStr (s "Done"));
                            (s "progress", PInt 100);
                            (s "confidence", PFloat 0.75)] in
  let request := Sample.message "finished the report" in
  let parsed := PDict ([(s "task_id", PStr []);
                        (s "status", PStr (s "Done"));
                        (s "progress", PInt 100);
                        (s "confidence", PFloat 0.75)] ++ Sample.defaults) in
  let st := {| trace := calls_before_decision w request Sample.ann
                          Sample.week Sample.tasks;
               ticks := 1 |} in
  interpreted w request Sample.ann Sample.week Sample.tasks parsed st
  /\ confidence_of w parsed = Ok 0.75%float
  /\ PrimFloat.leb threshold 0.75 = true
  /\ field parsed "followup" = PNone
  /\ field parsed "task_id" = PStr []
  /\ PStr [] <> PNone
  /\ twilio_inbound w request initial =
       (Ok (Twiml (PStr (s "I couldn" ++ rsquo ++
                         s "t match that to a task. Reply with A, B, C, or paste the task name."))),
        st)
  /\ writes st = [].
Proof.
  cbv zeta. repeat split; try reflexivity; try discriminate. reach.
Qed.

(** C3, amended. When the scoring step fails (the call to the model raises,
    or its output is not JSON), the handler makes no write to the store and
    ends with that exception: it returns no reply. *)
Theorem scoring_failure_propagates
    (w : World) (request : Request) (member : Member) (week : pystr)
    (tasks : list Task) (st : State) :
  tasks_loaded w request member week tasks st ->
  responses_create w (body_of (form request)) (task_list_from 0 tasks) = None
  \/ (exists text,
        responses_create w (body_of (form request)) (task_list_from 0 tasks)
        = Some text
        /\ json_loads w text = None) ->
  exists e,
    (e = ServiceError (s "openai") \/ e = JSONDecodeError)
    /\ twilio_inbound w request initial =
         (Raise e,
          {| trace := calls_before_decision w request member week tasks;
             ticks := 1 |})
    /\ writes {| trace := calls_before_decision w request member week tasks;
                 ticks := 1 |} = [].
Proof.
  intros Hl Hfail.
  rewrite (twilio_inbound_tasks_loaded Hl).
  apply tasks_loaded_state in Hl. subst st.
  unfold bind at 1, ai_parse_update, bind, service, lift.
  destruct Hfail as [H|(text & H & Hj)]; rewrite H.
  - exists (ServiceError (s "openai")). repeat split. now left.
  - rewrite Hj. exists JSONDecodeError. repeat split. now right.
Qed.

Lemma scoring_failure_propagates_witness :
  exists e,
    (e = ServiceError (s "openai") \/ e = JSONDecodeError)
    /\ twilio_inbound (Sample.world (Some (s "Sorry, I cannot help.")) None)
         (Sample.message "finished the report") initial =
         (Raise e,
          {| trace :=
               calls_before_decision
                 (Sample.world (Some (s "Sorry, I cannot help.")) None)
                 (Sample.message "finished the report") Sample.ann
                 Sample.week Sample.tasks;
             ticks := 1 |})
    /\ writes {| trace :=
                   calls_before_decision
                     (Sample.world (Some (s "Sorry, I cannot help.")) None)
                     (Sample.message "finished the report") Sample.ann
                     Sample.week Sample.tasks;
                 ticks := 1 |} = [].
Proof.
  refine (@scoring_failure_propagates
            (Sample.world (Some (s "Sorry, I cannot help.")) None)
            (Sample.message "finished the report") Sample.ann Sample.week
            Sample.tasks _ _ _).
  - reach.
  - right. eexists. split; reflexivity.
Defined.

(** C3 as stated fails: when the call to the model raises, the handler ends
    with the exception of the client and returns no reply. *)
Lemma no_reply_when_scoring_raises :
  twilio_inbound (Sample.world None None)
    (Sample.message "finished the report") initial =
  (Raise (ServiceError (s "openai")),
   {| trace := calls_before_decision (Sample.world None None)
                 (Sample.message "finished the report") Sample.ann
                 Sample.week Sample.tasks;
      ticks := 1 |}).
Proof. reflexivity. Qed.

(* ================================================================== *)
(** ** The update log *)
(* ================================================================== *)

(** C5. Whatever the stored log and the appended line, the text
    [notion_append_log] writes back has at most 1800 characters: when the
    page can be read, the handler's one write carries such a text, and when
    it cannot, nothing is written. *)
Theorem stored_log_at_most_1800
    (w : World) (task_id : pyval) (line : pystr) (st : State) :
  (forall current : pystr, List.length (next_log current line) <= 1800)
  /\ match pages_retrieve w task_id with
     | Some page =>
         exists text,
           List.length text <= 1800
           /\ text = next_log (current_log page) line
           /\ trace (snd (notion_append_log w task_id line st)) =
              trace st ++ [PagesRetrieve task_id;
                           PagesUpdate task_id (log_properties text)]
     | None =>
         trace (snd (notion_append_log w task_id line st)) =
         trace st ++ [PagesRetrieve task_id]
     end.
Proof.
  assert (Hlen : forall current, List.length (next_log current line) <= 1800).
  { intros current. unfold next_log. cbv zeta. apply firstn_le_length. }
  split; [exact Hlen|].
  rewrite notion_append_log_run.
  destruct (pages_retrieve w task_id) as [page|]; [|reflexivity].
  exists (next_log (current_log page) line).
  split; [apply Hlen|]. split; [reflexivity|].
  cbv zeta. cbn [snd log trace]. now rewrite <- app_assoc.
Qed.

(** C4 fails on the code: the combined text is cut after its first 1800
    characters, so the end of the text goes first.  A log that already has
    1800 characters stays as it is and the appended line is not stored at
    all. *)
Theorem full_log_drops_appended_line :
  let current := repeat 120%N 1800 in
  let line := s "2026-01-05T10:00:02 | Ann: finished the report" in
  let w := Sample.with_log current (Sample.world None None) in
  List.length line <= 1800
  /\ next_log current line = current
  /\ notion_append_log w (PStr (s "task-1")) line initial =
     (Ok tt,
      {| trace := [PagesRetrieve (PStr (s "task-1"));
                   PagesUpdate (PStr (s "task-1")) (log_properties current)];
         ticks := 0 |}).
Proof.
  cbv zeta. split; [|split].
  - apply Nat.leb_le. vm_compute. reflexivity.
  - vm_compute. reflexivity.
  - vm_compute. reflexivity.
Qed.

(** While the combined text fits, the appended line is its end. *)
Lemma short_log_keeps_appended_line :
  next_log (s "started") (s "2026-01-05T10:00:02 | Ann: done") =
  s "started" ++ nl ++ s "2026-01-05T10:00:02 | Ann: done".
Proof. reflexivity. Qed.

(* ================================================================== *)
(** ** The field update *)
(* ================================================================== *)

Lemma update_properties_typed (w : World) (now : pystr)
    (status : option pystr) (progress : option Z) (blocker : option pystr)
    (needs_attention : option bool) :
  update_properties w now (of_text status) (of_int progress)
    (of_text blocker) (of_bool needs_attention) =
  Ok (sent_properties now status progress blocker needs_attention).
Proof.
  destruct status as [[|c name]|], progress, blocker,
    needs_attention as [[|]|]; reflexivity.
Qed.

Lemma lookup_cons_ne {V} (k k0 : pystr) (v : V) (rest : list (pystr * V)) :
  k <> k0 -> lookup k ((k0, v) :: rest) = lookup k rest.
Proof. intros H. cbn [lookup]. apply str_eqb_neq in H. now rewrite H. Qed.

Lemma sent_properties_other (k now : pystr) status progress blocker
    needs_attention :
  k <> s "Last Update" -> k <> s "Status" -> k <> s "Progress %" ->
  k <> s "Blocker" -> k <> s "Needs Attention" ->
  lookup k (sent_properties now status progress blocker needs_attention)
  = None.
Proof.
  intros H1 H2 H3 H4 H5. unfold sent_properties.
  repeat rewrite lookup_app.
  rewrite (lookup_cons_ne _ _ H1).
  destruct status as [[|c name]|], progress, blocker, needs_attention;
    repeat first [ rewrite (lookup_cons_ne _ _ H2)
                 | rewrite (lookup_cons_ne _ _ H3)
                 | rewrite (lookup_cons_ne _ _ H4)
                 | rewrite (lookup_cons_ne _ _ H5) ];
    reflexivity.
Qed.

(** C6. Called with arguments of its declared types, [notion_update_task]
    makes one call to the store whose properties always carry the
    last-update stamp; under the store's partial update, a field that is
    not provided (status, progress, blocker, needs-attention) keeps its
    stored value, as does every property other than these five; provided
    progress, status and needs-attention values are the ones written; and a
    provided blocker text is written cut to its first 1800 characters. *)
Theorem apply_is_partial_update
    (w : World) (task_id : pyval) (status : option pystr)
    (progress : option Z) (blocker : option pystr)
    (needs_attention : option bool) (st : State)
    (stored : list (pystr * pyval)) :
  let now := utcnow_isoformat w (ticks st) in
  exists properties,
    update_properties w now (of_text status) (of_int progress)
      (of_text blocker) (of_bool needs_attention) = Ok properties
    /\ trace (snd (notion_update_task w task_id (of_text status)
                     (of_int progress) (of_text blocker)
                     (of_bool needs_attention) st)) =
       trace st ++ [PagesUpdate task_id (PDict properties)]
    /\ lookup (s "Last Update") (partial_update stored properties)
       = Some (date_value now)
    /\ (status = None ->
        lookup (s "Status") (partial_update stored properties)
        = lookup (s "Status") stored)
    /\ (progress = None ->
        lookup (s "Progress %") (partial_update stored properties)
        = lookup (s "Progress %") stored)
    /\ (blocker = None ->
        lookup (s "Blocker") (partial_update stored properties)
        = lookup (s "Blocker") stored)
    /\ (needs_attention = None ->
        lookup (s "Needs Attention") (partial_update stored properties)
        = lookup (s "Needs Attention") stored)
    /\ (forall k,
        k <> s "Last Update" -> k <> s "Status" -> k <> s "Progress %" ->
        k <> s "Blocker" -> k <> s "Needs Attention" ->
        lookup k (partial_update stored properties) = lookup k stored)
    /\ (forall c name, status = Some (c :: name) ->
        lookup (s "Status") (partial_update stored properties)
        = Some (select_value (PStr (c :: name))))
    /\ (forall n, progress = Some n ->
        lookup (s "Progress %") (partial_update stored properties)
        = Some (number_value n))
    /\ (forall b, needs_attention = Some b ->
        lookup (s "Needs Attention") (partial_update stored properties)
        = Some (checkbox_value b))
    /\ (forall text, blocker = Some text ->
        lookup (s "Blocker") (partial_update stored properties)
        = Some (rich_text_value (PStr (firstn 1800 text)))
        /\ List.length (firstn 1800 text) = Nat.min 1800 (List.length text)).
Proof.
  cbv zeta.
  exists (sent_properties (utcnow_isoformat w (ticks st)) status progress
            blocker needs_attention).
  split; [apply update_properties_typed|].
  split.
  { erewrite notion_update_task_run by apply update_properties_typed.
    reflexivity. }
  repeat split; intros; subst; try rewrite lookup_partial_update.
  - reflexivity.
  - destruct progress, blocker, needs_attention; reflexivity.
  - destruct status as [[|c name]|], blocker, needs_attention; reflexivity.
  - destruct status as [[|c name]|], progress, needs_attention; reflexivity.
  - destruct status as [[|c name]|], progress, blocker; reflexivity.
  - now rewrite sent_properties_other.
  - reflexivity.
  - destruct status as [[|c name]|]; reflexivity.
  - destruct status as [[|c name]|], progress, blocker; reflexivity.
  - destruct status as [[|c name]|], progress; reflexivity.
  - apply length_firstn.
Qed.

(** A blocker text of 2000 characters is stored with 1800, and a decision
    that sets only the progress leaves the stored status alone. *)
Example apply_cuts_long_blocker :
  update_properties (Sample.world None None) (s "2026-01-05T10:00:01")
    PNone PNone (PStr (repeat 98%N 2000)) PNone =
  Ok [(s "Last Update", date_value (s "2026-01-05T10:00:01"));
      (s "Blocker", rich_text_value (PStr (repeat 98%N 1800)))].
Proof. vm_compute. reflexivity. Qed.

Example apply_progress_only :
  partial_update
    [(s "Status", select_value (PStr (s "In Progress")));
     (s "Progress %", number_value 20)]
    (sent_properties (s "2026-01-05T10:00:01") None (Some 60%Z) None None) =
  [(s "Status", select_value (PStr (s "In Progress")));
   (s "Progress %", number_value 60);
   (s "Last Update", date_value (s "2026-01-05T10:00:01"))].
Proof. reflexivity. Qed.

(** C9. With the status [""], [notion_update_task] sends no [Status]
    property, so the stored status stays, and the last-update stamp is sent
    as always; a progress of 0 and a needs-attention of [False] are sent. *)
Theorem empty_status_is_not_written
    (w : World) (task_id : pyval) (progress : option Z)
    (blocker : option pystr) (needs_attention : option bool) (st : State)
    (stored : list (pystr * pyval)) :
  let now := utcnow_isoformat w (ticks st) in
  exists properties,
    update_properties w now (PStr []) (of_int progress) (of_text blocker)
      (of_bool needs_attention) = Ok properties
    /\ trace (snd (notion_update_task w task_id (PStr []) (of_int progress)
                     (of_text blocker) (of_bool needs_attention) st)) =
       trace st ++ [PagesUpdate task_id (PDict properties)]
    /\ properties = sent_properties now None progress blocker needs_attention
    /\ lookup (s "Status") properties = None
    /\ lookup (s "Status") (partial_update stored properties)
       = lookup (s "Status") stored
    /\ lookup (s "Last Update") properties = Some (date_value now)
    /\ (progress = Some 0%Z ->
        lookup (s "Progress %") properties = Some (number_value 0))
    /\ (needs_attention = Some false ->
        lookup (s "Needs Attention") properties = Some (checkbox_value false)).
Proof.
  cbv zeta.
  pose proof (update_properties_typed w (utcnow_isoformat w (ticks st))
                (Some []) progress blocker needs_attention) as Hp.
  change (of_text (Some [])) with (PStr []) in Hp.
  change (sent_properties (utcnow_isoformat w (ticks st)) (Some []) progress
            blocker needs_attention)
    with (sent_properties (utcnow_isoformat w (ticks st)) None progress
            blocker needs_attention) in Hp.
  eexists. split; [exact Hp|].
  split.
  { erewrite notion_update_task_run by exact Hp. reflexivity. }
  split; [reflexivity|].
  assert (Hs : lookup (s "Status")
                 (sent_properties (utcnow_isoformat w (ticks st)) None
                    progress blocker needs_attention) = None).
  { destruct progress, blocker, needs_attention; reflexivity. }
  repeat split; intros; subst.
  - exact Hs.
  - rewrite lookup_partial_update. now rewrite Hs.
  - destruct blocker, needs_attention; reflexivity.
  - destruct progress, blocker; reflexivity.
Qed.

(* ================================================================== *)
(** ** The confidence of a decision *)
(* ================================================================== *)

Lemma lookup_setdefault_items (k k' : pystr) (v : pyval)
    (kvs : list (pystr * pyval)) :
  lookup k' (setdefault_items k v kvs) =
  match lookup k' kvs with
  | Some x => Some x
  | None => if str_eqb k' k then Some v else None
  end.
Proof.
  unfold setdefault_items. destruct (lookup k kvs) eqn:E.
  - destruct (lookup k' kvs) eqn:E'; [reflexivity|].
    destruct (str_eqb k' k) eqn:Ek; [|reflexivity].
    apply str_eqb_eq in Ek. subst k'. congruence.
  - rewrite lookup_app. destruct (lookup k' kvs); [reflexivity|].
    cbn [lookup]. destruct (str_eqb k' k); reflexivity.
Qed.

(** The record after the block "Basic sanity". *)
Lemma basic_sanity_items (kvs : list (pystr * pyval)) :
  basic_sanity (PDict kvs) =
  Ok (PDict
        (setdefault_items (s "followup") PNone
           (setdefault_items (s "confidence") (PFloat 0)
              (setdefault_items (s "needs_attention") PNone
                 (setdefault_items (s "blocker") PNone
                    (setdefault_items (s "progress") PNone
                       (setdefault_items (s "status") PNone
                          (setdefault_items (s "task_id") PNone kvs)))))))).
Proof. reflexivity. Qed.

(** The block leaves a confidence that is present as it is, and sets a
    missing one to [0.0]. *)
Lemma basic_sanity_confidence (kvs : list (pystr * pyval)) :
  exists kvs',
    basic_sanity (PDict kvs) = Ok (PDict kvs')
    /\ lookup (s "confidence") kvs' =
       match lookup (s "confidence") kvs with
       | Some v => Some v
       | None => Some (PFloat 0)
       end.
Proof.
  eexists. split; [apply basic_sanity_items|].
  repeat rewrite lookup_setdefault_items.
  destruct (lookup (s "confidence") kvs); reflexivity.
Qed.

Lemma ai_parse_update_run (w : World) (message : pystr) (tasks : list Task)
    (st : State) (text : pystr) (data : pyval) :
  responses_create w message (task_list_from 0 tasks) = Some text ->
  json_loads w text = Some data ->
  ai_parse_update w message tasks st =
  (basic_sanity data,
   log (ResponsesCreate message (task_list_from 0 tasks)) st).
Proof.
  intros Hr Hj. unfold ai_parse_update, bind, service, lift.
  now rewrite Hr, Hj.
Qed.

(** C7, amended. For every record (a JSON object) returned by the scoring
    step, the decision carries the record's confidence as it is, or [0.0]
    when the record has none, and the confidence the handler uses is
    [float(confidence or 0.0)]: [0.0] for a confidence that is missing, null
    or otherwise falsy; the float itself for a float that is not zero; the
    [float()] of an integer; [1.0] for [true]; what [float()] reads from a
    text that is not empty.  So it lies in [0,1] whenever the record's
    confidence is a float, an integer or a boolean in [0,1], or a text
    [float()] reads as such.  The value is not clamped, and for a confidence
    [float()] does not convert (a text that is no number, a list or an
    object that is not empty) the conversion raises. *)
Theorem confidence_defaults_and_passes_through
    (w : World) (message : pystr) (tasks : list Task) (st : State)
    (text : pystr) (kvs : list (pystr * pyval)) :
  responses_create w message (task_list_from 0 tasks) = Some text ->
  json_loads w text = Some (PDict kvs) ->
  exists decision,
    fst (ai_parse_update w message tasks st) = Ok decision
    /\ field decision "confidence" =
       match lookup (s "confidence") kvs with
       | Some v => v
       | None => PFloat 0
       end
    /\ confidence_of w decision =
       match lookup (s "confidence") kvs with
       | None | Some PNone => Ok 0%float
       | Some (PBool b) => Ok (if b then 1%float else 0%float)
       | Some (PInt z) => float_of_Z z
       | Some (PFloat f) => Ok (if PrimFloat.eqb f 0 then 0%float else f)
       | Some (PStr []) => Ok 0%float
       | Some (PStr (c :: x)) =>
           match float_of_str w (c :: x) with
           | Some f => Ok f
           | None => Raise ValueError
           end
       | Some (PList []) | Some (PDict []) => Ok 0%float
       | Some (PList (_ :: _)) | Some (PDict (_ :: _)) => Raise TypeError
       end
    /\ (lookup (s "confidence") kvs = None ->
        field decision "confidence" = PFloat 0
        /\ confidence_of w decision = Ok 0%float)
    /\ (lookup (s "confidence") kvs = Some PNone ->
        confidence_of w decision = Ok 0%float)
    /\ (forall f, lookup (s "confidence") kvs = Some (PFloat f) ->
        exists c,
          confidence_of w decision = Ok c
          /\ (c = f \/ PrimFloat.eqb f 0 = true /\ c = 0%float)
          /\ (PrimFloat.leb 0 f = true -> PrimFloat.leb f 1 = true ->
              PrimFloat.leb 0 c = true /\ PrimFloat.leb c 1 = true))
    /\ (forall z, lookup (s "confidence") kvs = Some (PInt z) ->
        (0 <= z <= 1)%Z ->
        exists c,
          confidence_of w decision = Ok c
          /\ c = (if (z =? 0)%Z then 0%float else 1%float)
          /\ PrimFloat.leb 0 c = true /\ PrimFloat.leb c 1 = true)
    /\ (forall b, lookup (s "confidence") kvs = Some (PBool b) ->
        exists c,
          confidence_of w decision = Ok c
          /\ c = (if b then 1%float else 0%float)
          /\ PrimFloat.leb 0 c = true /\ PrimFloat.leb c 1 = true)
    /\ (forall x f, lookup (s "confidence") kvs = Some (PStr x) ->
        x <> [] -> float_of_str w x = Some f ->
        confidence_of w decision = Ok f)
    /\ (forall x, lookup (s "confidence") kvs = Some (PStr x) ->
        x <> [] -> float_of_str w x = None ->
        confidence_of w decision = Raise ValueError).
Proof.
  intros Hr Hj.
  rewrite (@ai_parse_update_run w message tasks st text (PDict kvs) Hr Hj).
  cbn [fst].
  destruct (basic_sanity_confidence kvs) as (kvs' & Hs & Hc).
  exists (PDict kvs'). split; [exact Hs|].
  unfold confidence_of, field, py_get, rbind, py_or. rewrite Hc.
  destruct (lookup (s "confidence") kvs) as [v|] eqn:E.
  - split; [reflexivity|]. split.
    { destruct v as [|b|z|f|x|l|d]; cbn [truthy py_float].
      - reflexivity.
      - now destruct b.
      - destruct (z =? 0)%Z eqn:Ez; cbn [negb py_float]; [|reflexivity].
        apply Z.eqb_eq in Ez. now subst z.
      - now destruct (PrimFloat.eqb f 0).
      - now destruct x.
      - now destruct l.
      - now destruct d. }
    split; [discriminate|].
    split; [intros H; inversion H; reflexivity|].
    split.
    { intros f H. inversion H. subst v. cbn [truthy].
      destruct (PrimFloat.eqb f 0) eqn:Ef; cbn [negb py_float].
      - exists 0%float. repeat split; auto.
      - exists f. repeat split; auto. }
    split.
    { intros z H Hz. inversion H. subst v.
      assert (Hz' : z = 0%Z \/ z = 1%Z) by lia.
      destruct Hz' as [->| ->]; eexists; repeat split. }
    split.
    { intros b H. inversion H. subst v.
      destruct b; eexists; repeat split. }
    split.
    { intros x f H Hx Hf. inversion H. subst v.
      destruct x; [contradiction|]. cbn [truthy py_float]. now rewrite Hf. }
    intros x H Hx Hf. inversion H. subst v.
    destruct x; [contradiction|]. cbn [truthy py_float]. now rewrite Hf.
  - repeat split; intros; discriminate.
Qed.

Lemma confidence_defaults_and_passes_through_witness :
  exists decision,
    fst (ai_parse_update
           (Sample.deciding [(s "task_id", PStr (s "task-1"));
                             (s "progress", PInt 60)])
           (s "60%") Sample.tasks initial) = Ok decision
    /\ confidence_of
         (Sample.deciding [(s "task_id", PStr (s "task-1"));
                           (s "progress", PInt 60)]) decision
       = Ok 0%float.
Proof.
  destruct (@confidence_defaults_and_passes_through
              (Sample.deciding [(s "task_id", PStr (s "task-1"));
                                (s "progress", PInt 60)])
              (s "60%") Sample.tasks initial (s "(the model's output)")
              [(s "task_id", PStr (s "task-1")); (s "progress", PInt 60)]
              eq_refl eq_refl) as (decision & Hd & _ & _ & Hmissing & _).
  exists decision. split; [exact Hd|]. exact (proj2 (Hmissing eq_refl)).
Defined.

(** C7 as stated fails: a record with the confidence 1.5 yields a decision
    whose confidence, as the handler uses it, is 1.5. *)
Lemma confidence_is_not_clamped :
  let w := Sample.deciding [(s "task_id", PStr (s "task-1"));
                            (s "confidence", PFloat 1.5)] in
  let decision :=
    PDict [(s "task_id", PStr (s "task-1"));
           (s "confidence", PFloat 1.5);
           (s "status", PNone); (s "progress", PNone); (s "blocker", PNone);
           (s "needs_attention", PNone); (s "followup", PNone)] in
  fst (ai_parse_update w (s "done") Sample.tasks initial) = Ok decision
  /\ confidence_of w decision = Ok 1.5%float
  /\ PrimFloat.leb 1.5 1 = false.
Proof. cbv zeta. repeat split. Qed.

(* ================================================================== *)
(** ** The labels of the candidates *)
(* ================================================================== *)

(** The labels of the candidate summary and the lines of the digest. *)
Lemma labels_from (i : Z) (tasks : list Task) :
  List.map letter (task_list_from i tasks) =
  List.map (fun n => chr (65 + i + Z.of_nat n)) (seq 0 (List.length tasks)).
Proof.
  revert i. induction tasks as [|t rest IH]; intros i; [reflexivity|].
  cbn [task_list_from List.map letter List.length seq].
  rewrite IH, <- seq_shift, map_map. f_equal.
  - now rewrite Z.add_0_r.
  - apply map_ext. intros n. f_equal. lia.
Qed.

Lemma digest_labels_from (w : World) (i : Z) (tasks : list Task) :
  List.map (firstn 1) (task_lines_from w i tasks) =
  List.map letter (task_list_from i tasks).
Proof.
  revert i. induction tasks as [|t rest IH]; intros i; [reflexivity|].
  cbn [task_lines_from task_list_from List.map letter].
  now rewrite IH.
Qed.

(** X22. The labels [ai_parse_update] gives the candidates of a list are
    pairwise different, whatever the length of the list. *)
Lemma labels_unique (tasks : list Task) :
  NoDup (List.map letter (task_list_from 0 tasks)).
Proof.
  rewrite labels_from. apply Injective_map_NoDup; [|apply seq_NoDup].
  intros n m H. unfold chr in H.
  assert (H' : Z.to_N (65 + 0 + Z.of_nat n) = Z.to_N (65 + 0 + Z.of_nat m))
    by congruence.
  apply (f_equal Z.of_N) in H'. rewrite !Z2N.id in H' by lia. lia.
Qed.

(** X23. For a list of at most 26 tasks, every label [ai_parse_update]
    gives is one capital letter. *)
Lemma labels_capital (tasks : list Task) :
  List.length tasks <= 26 ->
  Forall (fun label => is_capital label = true)
    (List.map letter (task_list_from 0 tasks)).
Proof.
  intros Hn. rewrite labels_from. apply Forall_forall.
  intros label Hin. apply in_map_iff in Hin. destruct Hin as (n & <- & Hin).
  apply in_seq in Hin. unfold is_capital, chr.
  apply andb_true_iff. split; apply N.leb_le; lia.
Qed.

Example labels_of_three :
  List.map letter
    (task_list_from 0 (repeat (Sample.task "task-1" "Write report") 3))
  = [s "A"; s "B"; s "C"].
Proof. reflexivity. Qed.

(** C8 fails on the code for a list of more than 26 tasks: the 27th
    candidate gets the label "[", which is no letter, in the candidate
    summary and in the digest alike. *)
Theorem label_27_is_not_a_letter :
  let tasks := repeat (Sample.task "task-1" "Write report") 27 in
  List.length tasks <= 50
  /\ nth 26 (List.map letter (task_list_from 0 tasks)) [] = s "["
  /\ is_capital (s "[") = false
  /\ nth 26 (task_lines_from (Sample.world None None) 0 tasks) []
     = s "[) Write report".
Proof.
  cbv zeta. split.
  - apply Nat.leb_le. reflexivity.
  - repeat split.
Qed.

(* ================================================================== *)
(** ** The weekly trigger *)
(* ================================================================== *)

Lemma rbenign_ok {A} (a : A) : rbenign (Ok a).
Proof. intros e H. discriminate H. Qed.

Lemma rbenign_rbind {A B} (r : result A) (k : A -> result B) :
  rbenign r -> (forall a, rbenign (k a)) -> rbenign (rbind r k).
Proof.
  intros Hr Hk e H. destruct r as [a|e']; simpl in H.
  - exact (Hk a e H).
  - apply Hr. congruence.
Qed.

Lemma rbenign_py_get d k v : rbenign (py_get d k v).
Proof. intros e H. destruct d; inversion H; reflexivity. Qed.

Lemma rbenign_getitem_key v k : rbenign (getitem_key v k).
Proof.
  intros e H. destruct v; simpl in H; try (inversion H; reflexivity).
  destruct (lookup k kvs); inversion H; reflexivity.
Qed.

Lemma rbenign_getitem_0 v : rbenign (getitem_0 v).
Proof.
  intros e H. destruct v as [| | | |x|l|kvs]; simpl in H;
    try (inversion H; reflexivity).
  - destruct x; inversion H; reflexivity.
  - destruct l; inversion H; reflexivity.
Qed.

Lemma rbenign_py_iter v : rbenign (py_iter v).
Proof. intros e H. destruct v; inversion H; reflexivity. Qed.

Ltac rbenign :=
  repeat first
    [ apply rbenign_ok
    | apply rbenign_py_get
    | apply rbenign_getitem_key
    | apply rbenign_getitem_0
    | apply rbenign_py_iter
    | apply rbenign_rbind; [|intros] ].

Lemma rbenign_task_of_page p : rbenign (task_of_page p).
Proof. unfold task_of_page. rbenign. Qed.

Lemma rbenign_tasks_of_pages pages : rbenign (tasks_of_pages pages).
Proof.
  induction pages as [|p rest IH]; cbn [tasks_of_pages].
  - apply rbenign_ok.
  - apply rbenign_rbind; [apply rbenign_task_of_page|intros t].
    apply rbenign_rbind; [exact IH|intros out]. apply rbenign_ok.
Qed.

Lemma benign_ret {A} (a : A) : benign (ret a).
Proof. intros st e st' H. discriminate H. Qed.

Lemma benign_lift {A} (r : result A) : rbenign r -> benign (lift r).
Proof. intros Hr st e st' H. inversion H. now apply Hr. Qed.

Lemma benign_service {A} c name (answer : option A) :
  benign (service c name answer).
Proof.
  intros st e st' H. unfold service in H.
  destruct answer; inversion H; reflexivity.
Qed.

Lemma benign_read_clock {A} (at_tick : nat -> A) : benign (read_clock at_tick).
Proof. intros st e st' H. discriminate H. Qed.

Lemma benign_bind {A B} (m : M A) (k : A -> M B) :
  benign m -> (forall a, benign (k a)) -> benign (bind m k).
Proof.
  intros Hm Hk st e st' H. unfold bind in H.
  destruct (m st) as [[a|e0] st1] eqn:E.
  - exact (Hk a st1 e st' H).
  - inversion H. subst. exact (Hm st e st' E).
Qed.

Ltac benign :=
  repeat first
    [ apply benign_ret
    | apply benign_service
    | apply benign_read_clock
    | apply benign_lift; rbenign
    | apply benign_bind; [|intros]
    | match goal with
      | |- benign (if ?b then _ else _) => destruct b
      | |- benign (match ?x with _ => _ end) => destruct x
      end ].




(** Once the secret has been accepted, [send_weekly] raises no
    [HTTPException]. *)
Lemma send_weekly_accepted w request :
  header request (s "x-bot-secret") [] = getenv w (s "BOT_SECRET") ->
  benign (send_weekly w request).
Proof.
  intros H. unfold send_weekly. rewrite H, str_eqb_refl. cbn [negb].
  benign.
  all: try apply rbenign_tasks_of_pages.
  destruct (json_body request); [apply rbenign_ok|].
  intros e He. inversion He. reflexivity.
Qed.

(** C10. [send_weekly] rejects a request with status 403 exactly when the
    header [x-bot-secret] ([""] when missing) differs from the variable
    [BOT_SECRET] ([""] when unset), and then before anything else is done;
    so with no secret configured, a request whose header is missing or empty
    is not rejected. *)
Theorem send_weekly_rejects_iff_secret_differs
    (w : World) (request : Request) (st : State) :
  let secret := header request (s "x-bot-secret") [] in
  let configured := getenv w (s "BOT_SECRET") in
  ((exists detail st',
      send_weekly w request st = (Raise (HTTPException 403 detail), st'))
   <-> secret <> configured)
  /\ (secret <> configured ->
      send_weekly w request st =
      (Raise (HTTPException 403 (s "Forbidden")), st))
  /\ (lookup (s "BOT_SECRET") (environ w) = None ->
      lookup (s "x-bot-secret") (headers request) = None
      \/ lookup (s "x-bot-secret") (headers request) = Some [] ->
      forall e st', send_weekly w request st = (Raise e, st') ->
                    is_http e = false).
Proof.
  cbv zeta.
  assert (Hreject :
    header request (s "x-bot-secret") [] <> getenv w (s "BOT_SECRET") ->
    send_weekly w request st =
    (Raise (HTTPException 403 (s "Forbidden")), st)).
  { intros Hne. unfold send_weekly. apply str_eqb_neq in Hne.
    now rewrite Hne. }
  split; [split|split].
  - intros (detail & st' & H) Heq.
    apply (send_weekly_accepted w request Heq) in H. discriminate H.
  - intros Hne. exists (s "Forbidden"), st. now apply Hreject.
  - exact Hreject.
  - intros Hunset Hheader e st' H.
    apply (@send_weekly_accepted w request) in H; [exact H|].
    unfold header, getenv. rewrite Hunset.
    destruct Hheader as [Hh|Hh]; now rewrite Hh.
Qed.

Example send_weekly_open_when_unconfigured :
  fst (send_weekly (Sample.world None None)
         {| headers := []; url_scheme := s "https";
            url_path := s "/api/jobs/send_weekly"; url_query := [];
            form := [];
            json_body := Some (PDict [(s "to", PStr (s "+14155552671"))]) |}
         initial) =
  Ok (Json (PDict [(s "ok", PBool true);
                   (s "preview_message",
                    PStr (build_weekly_message (Sample.world None None)
                            (PStr (s "2026-W02")) Sample.tasks));
                   (s "tasks", PInt 2)])).
Proof. reflexivity. Qed.

(* ================================================================== *)
(** ** White space and prefixes *)
(* ================================================================== *)

Lemma lstrip_blank (x : pystr) : blank x = true -> lstrip x = [].
Proof.
  induction x as [|c x IH]; cbn [blank forallb lstrip]; [reflexivity|].
  intros H. apply andb_true_iff in H. destruct H as [Hc Hx].
  rewrite Hc. exact (IH Hx).
Qed.

Lemma lstrip_nil_blank (x : pystr) : lstrip x = [] -> blank x = true.
Proof.
  induction x as [|c x IH]; cbn [blank forallb lstrip]; [reflexivity|].
  destruct (is_space c); [exact IH|discriminate].
Qed.

Lemma lstrip_text (x : pystr) : starts_with_text x = true -> lstrip x = x.
Proof.
  destruct x as [|c x]; cbn [starts_with_text lstrip]; [discriminate|].
  intros H. apply negb_true_iff in H. now rewrite H.
Qed.

(** What [lstrip] leaves is empty or starts with a character that is no
    white space. *)
Lemma lstrip_result (x : pystr) :
  lstrip x = [] \/ starts_with_text (lstrip x) = true.
Proof.
  induction x as [|c x IH]; cbn [lstrip]; [now left|].
  destruct (is_space c) eqn:E; [exact IH|].
  right. cbn [starts_with_text]. now rewrite E.
Qed.

Lemma lstrip_idem (x : pystr) : lstrip (lstrip x) = lstrip x.
Proof.
  destruct (lstrip_result x) as [H|H]; [now rewrite H|now apply lstrip_text].
Qed.

Lemma lstrip_app_text (x y : pystr) :
  starts_with_text y = true -> lstrip (x ++ y) = lstrip x ++ y.
Proof.
  intros Hy. induction x as [|c x IH]; cbn [app lstrip].
  - now apply lstrip_text.
  - destruct (is_space c); [exact IH|reflexivity].
Qed.

Lemma blank_rev (x : pystr) : blank (rev x) = blank x.
Proof.
  unfold blank. induction x as [|c x IH]; [reflexivity|].
  cbn [rev forallb]. rewrite forallb_app, IH. cbn [forallb].
  rewrite andb_true_r. apply andb_comm.
Qed.

Lemma starts_with_text_app (x y : pystr) :
  starts_with_text x = true -> starts_with_text (x ++ y) = true.
Proof. destruct x; [discriminate|trivial]. Qed.

Lemma rstrip_app_text (x y : pystr) :
  ends_with_text y = true -> rstrip (x ++ y) = x ++ y.
Proof.
  intros Hy. unfold rstrip. rewrite rev_app_distr.
  rewrite lstrip_text by now apply starts_with_text_app.
  now rewrite <- rev_app_distr, rev_involutive.
Qed.

Lemma rstrip_cons_text (c : N) (x : pystr) :
  is_space c = false -> rstrip (c :: x) = c :: rstrip x.
Proof.
  intros Hc. unfold rstrip. cbn [rev].
  rewrite lstrip_app_text by (cbn [starts_with_text]; now rewrite Hc).
  now rewrite rev_app_distr.
Qed.

Lemma rstrip_idem (x : pystr) : rstrip (rstrip x) = rstrip x.
Proof. unfold rstrip. now rewrite rev_involutive, lstrip_idem. Qed.

(** A text stripped once is not changed by stripping it again. *)
Lemma strip_idem (x : pystr) : strip (strip x) = strip x.
Proof.
  unfold strip at 2 3.
  assert (H : lstrip (rstrip (lstrip x)) = rstrip (lstrip x)).
  { destruct (lstrip_result x) as [E|E].
    - now rewrite E.
    - destruct (lstrip x) as [|c y]; [discriminate|].
      cbn [starts_with_text] in E. apply negb_true_iff in E.
      rewrite rstrip_cons_text by exact E. cbn [lstrip]. now rewrite E. }
  unfold strip. now rewrite H, rstrip_idem.
Qed.

(** Stripping leaves nothing exactly of the texts of white space only. *)
Lemma strip_nil_iff (x : pystr) : strip x = [] <-> blank x = true.
Proof.
  unfold strip, rstrip. split.
  - intros H. apply (f_equal (@rev N)) in H.
    rewrite rev_involutive in H. cbn [rev] in H.
    apply lstrip_nil_blank in H. rewrite blank_rev in H.
    apply lstrip_nil_blank.
    destruct (lstrip_result x) as [E|E]; [exact E|].
    destruct (lstrip x) as [|c y]; [reflexivity|].
    cbn [starts_with_text] in E. cbn [blank forallb] in H.
    apply andb_true_iff in H. destruct H as [H _].
    rewrite H in E. discriminate.
  - intros H. rewrite (@lstrip_blank x H). reflexivity.
Qed.

Lemma startswith_app (p x : pystr) : startswith (p ++ x) p = true.
Proof.
  induction p as [|c p IH]; [now destruct x|].
  cbn [app startswith]. now rewrite N.eqb_refl, IH.
Qed.

Lemma replace_from_skip (old new y x : pystr) :
  replace_from old new (y ++ x) (List.length y) = replace_from old new x 0.
Proof. induction y as [|c y IH]; [reflexivity|exact IH]. Qed.

Lemma replace_from_absent (old new x : pystr) :
  contains x old = false -> replace_from old new x 0 = x.
Proof.
  induction x as [|c x IH]; [reflexivity|].
  cbn [contains replace_from]. intros H.
  apply orb_false_iff in H. destruct H as [H1 H2].
  rewrite H1. now rewrite (IH H2).
Qed.

(** X1. For a sender of the form ["whatsapp:" + x] whose rest [x] does not
    contain the prefix again, [normalize_phone] gives [x] without the white
    space around it. *)
Theorem normalize_phone_removes_prefix (x : pystr) :
  contains x (s "whatsapp:") = false ->
  normalize_phone (s "whatsapp:" ++ x) = strip x.
Proof.
  intros H. unfold normalize_phone. rewrite startswith_app.
  f_equal. unfold replace.
  change (s "whatsapp:" ++ x) with (119%N :: (skipn 1 (s "whatsapp:") ++ x)).
  cbn [replace_from].
  change (119%N :: skipn 1 (s "whatsapp:") ++ x) with (s "whatsapp:" ++ x).
  rewrite startswith_app. cbn [app].
  change (List.length (s "whatsapp:") - 1)
    with (List.length (skipn 1 (s "whatsapp:"))).
  rewrite replace_from_skip. now apply replace_from_absent.
Qed.

Lemma normalize_phone_removes_prefix_witness :
  normalize_phone (s "whatsapp:" ++ s " +14155552671 ") = s "+14155552671".
Proof.
  exact (@normalize_phone_removes_prefix (s " +14155552671 ") eq_refl).
Defined.

(** X2. The address [normalize_phone] returns has no white space at its
    ends: stripping it again changes nothing. *)
Theorem normalize_phone_is_stripped (p : pystr) :
  strip (normalize_phone p) = normalize_phone p.
Proof. unfold normalize_phone. apply strip_idem. Qed.

(** X3. When the signature check lets the request through and the form has
    no [Body], or a [Body] of white space only, [twilio_inbound] answers with
    the usage hint and calls no service. *)
Theorem blank_body_gets_usage_hint (w : World) (request : Request) :
  signature_refused w request (get_full_url request) = false ->
  lookup (s "Body") (form request) = None
  \/ (exists text, lookup (s "Body") (form request) = Some text
                   /\ blank text = true) ->
  twilio_inbound w request initial = (Ok (Twiml usage_hint), initial).
Proof.
  intros Hsig Hbody.
  assert (Hb : body_of (form request) = []).
  { unfold body_of. destruct Hbody as [H|(text & H & Hblank)]; rewrite H.
    - reflexivity.
    - destruct text; [reflexivity|]. now apply strip_nil_iff. }
  unfold twilio_inbound, bind. cbv zeta. rewrite Hb.
  unfold require_twilio_signature. unfold signature_refused in Hsig.
  destruct (TWILIO_AUTH_TOKEN w); [reflexivity|].
  destruct (header request (s "x-twilio-signature") []); [reflexivity|].
  rewrite Hsig. reflexivity.
Qed.

Lemma blank_body_gets_usage_hint_witness :
  twilio_inbound (Sample.world None None)
    {| headers := []; url_scheme := s "https";
       url_path := s "/api/twilio/inbound"; url_query := [];
       form := [(s "From", s "whatsapp:+14155552671");
                (s "Body", [32; 9; 10; 160; 8195]%N)];
       json_body := None |} initial
  = (Ok (Twiml usage_hint), initial).
Proof.
  refine (@blank_body_gets_usage_hint (Sample.world None None) _ _ _).
  - reflexivity.
  - right. eexists. split; reflexivity.
Defined.

(* ================================================================== *)
(** ** The signature check of the webhooks *)
(* ================================================================== *)










Lemma rbenign_plain_texts items : rbenign (plain_texts items).
Proof.
  induction items as [|r rest IH]; cbn [plain_texts]; [apply rbenign_ok|].
  apply rbenign_rbind; [apply rbenign_py_get|intros x].
  apply rbenign_rbind; [exact IH|intros xs; apply rbenign_ok].
Qed.

Lemma benign_raise_other {A} (e : exn) : is_http e = false -> benign (@raise A e).
Proof. intros He st e' st' H. inversion H. now subst. Qed.






(** What [require_twilio_signature] does. *)
Lemma require_twilio_signature_run w request st :
  require_twilio_signature w request (form request) st =
  if signature_refused w request (get_full_url request)
  then (Raise (HTTPException 403 (s "Invalid Twilio signature")), st)
  else (Ok tt, st).
Proof.
  unfold require_twilio_signature, signature_refused.
  destruct (TWILIO_AUTH_TOKEN w); [reflexivity|].
  destruct (header request (s "x-twilio-signature") []); [reflexivity|].
  cbv zeta. destruct (negb _); reflexivity.
Qed.


Example twilio_inbound_refuses_bad_signature :
  twilio_inbound
    (Scenario.world (s "token") false Scenario.one_member Scenario.two_tasks
       None None None None None)
    (Scenario.signed "forged" "done") initial
  = (Raise (HTTPException 403 (s "Invalid Twilio signature")), initial).
Proof. reflexivity. Qed.

(** X5. The first version of the webhook, [inbound] of [main.py], calls no
    service and answers every request the signature check lets through
    with one reply: the usage hint when the body is missing or white space
    only, and otherwise "Got it: " followed by the stripped body.  A refused
    signature gives the 403. *)
Theorem main_inbound_always_replies
    (w : World) (request : Request) (url : pystr) (st : State) :
  Main.inbound w request url st =
  if signature_refused w request url
  then (Raise (HTTPException 403 (s "Invalid Twilio signature")), st)
  else
    (Ok (Twiml
           (match lookup (s "Body") (form request) with
            | Some text =>
                if blank text
                then PStr (s "Send an update like: done, 60%, or blocked waiting on X.")
                else PStr (s "Got it: " ++ strip text)
            | None =>
                PStr (s "Send an update like: done, 60%, or blocked waiting on X.")
            end)),
     st).
Proof.
  unfold Main.inbound, signature_refused, bind. cbv zeta.
  assert (Hbody :
    (match body_of (form request) with
     | [] => lift (Main.twiml (PStr (s "Send an update like: done, 60%, or blocked waiting on X.")))
     | _ :: _ => lift (Main.twiml (PStr (s "Got it: " ++ body_of (form request))))
     end) st =
    (Ok (Twiml
           (match lookup (s "Body") (form request) with
            | Some text =>
                if blank text
                then PStr (s "Send an update like: done, 60%, or blocked waiting on X.")
                else PStr (s "Got it: " ++ strip text)
            | None =>
                PStr (s "Send an update like: done, 60%, or blocked waiting on X.")
            end)), st)).
  { unfold body_of.
    destruct (lookup (s "Body") (form request)) as [[|c text]|];
      try reflexivity.
    destruct (blank (c :: text)) eqn:Eb.
    - apply strip_nil_iff in Eb. now rewrite Eb.
    - destruct (strip (c :: text)) eqn:Es; [|reflexivity].
      apply strip_nil_iff in Es. congruence. }
  destruct (TWILIO_AUTH_TOKEN w); [exact Hbody|].
  destruct (header request (s "x-twilio-signature") []); [exact Hbody|].
  destruct (negb _); [reflexivity|exact Hbody].
Qed.

Example main_inbound_echo :
  Main.inbound (Sample.world None None) (Sample.message "  60% done ")
    (s "https://bot.example/twilio/inbound") initial
  = (Ok (Twiml (PStr (s "Got it: 60% done"))), initial).
Proof. reflexivity. Qed.

(* ================================================================== *)
(** ** The directory: unknown senders, empty weeks, and what is read *)
(* ================================================================== *)

(** X6. When the team database has no page for the sender (the answer has
    no results, or an empty or null list), [twilio_inbound] answers that the
    number is not recognized; the team query is the only call made. *)
Theorem unknown_sender_is_not_recognized
    (w : World) (request : Request) (resp results : pyval) :
  signature_refused w request (get_full_url request) = false ->
  body_of (form request) <> [] ->
  databases_query w
    (find_member_kwargs w
       (PStr (normalize_phone (from_raw_of (form request))))) = Some resp ->
  py_get resp (s "results") PNone = Ok results ->
  truthy results = false ->
  twilio_inbound w request initial =
  (Ok (Twiml not_recognized),
   {| trace :=
        [DatabasesQuery
           (find_member_kwargs w
              (PStr (normalize_phone (from_raw_of (form request)))))];
      ticks := 0 |}).
Proof.
  intros Hsig Hbody Hq Hres Hempty.
  unfold twilio_inbound, bind. cbv zeta.
  rewrite require_twilio_signature_run, Hsig.
  destruct (body_of (form request)) as [|c body]; [contradiction|].
  unfold notion_find_member_by_phone, bind, service, lift. cbv zeta.
  rewrite Hq, Hres, Hempty. reflexivity.
Qed.

Lemma unknown_sender_is_not_recognized_witness :
  twilio_inbound
    (Scenario.world [] true (Scenario.results []) Scenario.two_tasks None
       None None None None)
    (Sample.message "done") initial =
  (Ok (Twiml not_recognized),
   {| trace :=
        [DatabasesQuery
           (find_member_kwargs
              (Scenario.world [] true (Scenario.results [])
                 Scenario.two_tasks None None None None None)
              (PStr (s "+14155552671")))];
      ticks := 0 |}).
Proof.
  refine (@unknown_sender_is_not_recognized
            (Scenario.world [] true (Scenario.results []) Scenario.two_tasks
               None None None None None)
            (Sample.message "done")
            (PDict [(s "results", PList [])]) (PList []) _ _ _ _ _).
  - reflexivity.
  - discriminate.
  - reflexivity.
  - reflexivity.
  - reflexivity.
Defined.

(** X7. When the sender is a member and the task database has no task for
    the member this week (the answer has no results or an empty list),
    [twilio_inbound] answers that no tasks were found, naming the week; the
    calls made are the two queries, and the model is not called. *)
Theorem empty_week_gets_no_tasks_reply
    (w : World) (request : Request) (member : Member) (st1 : State)
    (resp : pyval) :
  signature_refused w request (get_full_url request) = false ->
  body_of (form request) <> [] ->
  notion_find_member_by_phone w
    (PStr (normalize_phone (from_raw_of (form request)))) initial
  = (Ok (Some member), st1) ->
  databases_query w
    (get_tasks_kwargs w (m_id member)
       (PStr (str_of_Z (iso_year (today_isocalendar w 0)) ++ s "-W" ++
              format_02d (iso_week (today_isocalendar w 0))))) = Some resp ->
  py_get resp (s "results") (PList []) = Ok (PList []) ->
  twilio_inbound w request initial =
  (Ok (Twiml (no_tasks_found
                (str_of_Z (iso_year (today_isocalendar w 0)) ++ s "-W" ++
                 format_02d (iso_week (today_isocalendar w 0))))),
   {| trace :=
        [DatabasesQuery
           (find_member_kwargs w
              (PStr (normalize_phone (from_raw_of (form request)))));
         DatabasesQuery
           (get_tasks_kwargs w (m_id member)
              (PStr (str_of_Z (iso_year (today_isocalendar w 0)) ++ s "-W" ++
                     format_02d (iso_week (today_isocalendar w 0)))))];
      ticks := 1 |}).
Proof.
  intros Hsig Hbody Hm Hq Hres.
  pose proof (notion_find_member_by_phone_state _ _ _ Hm) as Hst1.
  unfold twilio_inbound, bind. cbv zeta.
  rewrite require_twilio_signature_run, Hsig.
  destruct (body_of (form request)) as [|c body]; [contradiction|].
  rewrite Hm. subst st1.
  unfold iso_week_key, bind, read_clock, ret. cbn [ticks log initial].
  unfold notion_get_tasks_for_member_week, bind, service, lift. cbv zeta.
  rewrite Hq, Hres. reflexivity.
Qed.

Lemma empty_week_gets_no_tasks_reply_witness :
  twilio_inbound
    (Scenario.world [] true Scenario.one_member (Scenario.results []) None
       None None None None)
    (Sample.message "done") initial =
  (Ok (Twiml (no_tasks_found (s "2026-W02"))),
   {| trace :=
        [DatabasesQuery
           (find_member_kwargs
              (Scenario.world [] true Scenario.one_member
                 (Scenario.results []) None None None None None)
              (PStr (s "+14155552671")));
         DatabasesQuery
           (get_tasks_kwargs
              (Scenario.world [] true Scenario.one_member
                 (Scenario.results []) None None None None None)
              (PStr (s "member-1")) (PStr (s "2026-W02")))];
      ticks := 1 |}).
Proof.
  refine (@empty_week_gets_no_tasks_reply
            (Scenario.world [] true Scenario.one_member (Scenario.results [])
               None None None None None)
            (Sample.message "done") Sample.ann _
            (PDict [(s "results", PList [])]) _ _ _ _ _).
  - reflexivity.
  - discriminate.
  - reflexivity.
  - reflexivity.
  - reflexivity.
Defined.

Lemma truthy_py_or (v d : pyval) : truthy d = true -> truthy (py_or v d) = true.
Proof. intros H. unfold py_or. now destruct (truthy v) eqn:E. Qed.

(** What [safe_text] returns: the [plain_text] of the first item of a list
    whose first item is a dictionary with that key, and [""] for every other
    value. *)
Lemma safe_text_first_item (prop : pyval) :
  safe_text prop =
  match prop with
  | PList (PDict item :: _) =>
      match lookup (s "plain_text") item with
      | Some v => v
      | None => PStr []
      end
  | _ => PStr []
  end.
Proof.
  unfold safe_text.
  destruct prop as [|b|z|f|x|l|d]; try reflexivity.
  - now destruct x.
  - destruct l as [|item rest]; [reflexivity|].
    destruct item; try reflexivity.
    cbn [getitem_0 rbind getitem_key].
    now destruct (lookup (s "plain_text") kvs).
Qed.

Lemma py_or_safe_text (title : pyval) (default : string) :
  s default <> [] ->
  py_or (safe_text title) (PStr (s default)) = title_text title default.
Proof.
  intros Hd. rewrite safe_text_first_item. unfold title_text, py_or.
  destruct title as [|b|z|f|x|l|d]; try reflexivity.
  destruct l as [|item rest]; [reflexivity|].
  destruct item; try reflexivity.
  now destruct (lookup (s "plain_text") kvs).
Qed.

(** X8. A member [notion_find_member_by_phone] returns comes from the first
    page of the answer: it has that page's id, and its name is
    [safe_text(page["properties"]["Name"]["title"]) or "Team member"], that
    is the [plain_text] of the first item of the page's title when that is
    set and truthy, and "Team member" in every other case; so the name is
    never empty. *)
Theorem found_member_has_id_and_name
    (w : World) (phone : pyval) (st st' : State) (member : Member) :
  notion_find_member_by_phone w phone st = (Ok (Some member), st') ->
  truthy (m_name member) = true
  /\ exists resp pages page,
       databases_query w (find_member_kwargs w phone) = Some resp
       /\ getitem_key resp (s "results") = Ok pages
       /\ getitem_0 pages = Ok page
       /\ getitem_key page (s "id") = Ok (m_id member)
       /\ exists props name title,
            getitem_key page (s "properties") = Ok props
            /\ getitem_key props (s "Name") = Ok name
            /\ getitem_key name (s "title") = Ok title
            /\ m_name member =
               py_or (safe_text title) (PStr (s "Team member"))
            /\ m_name member = title_text title "Team member".
Proof.
  unfold notion_find_member_by_phone, bind, service, lift. cbv zeta.
  destruct (databases_query w (find_member_kwargs w phone)) as [resp|];
    [|discriminate].
  destruct (py_get resp (s "results") PNone) as [results|]; [|discriminate].
  destruct (negb (truthy results)); [discriminate|].
  unfold rbind.
  destruct (getitem_key resp (s "results")) as [pages|] eqn:E1;
    [|discriminate].
  destruct (getitem_0 pages) as [page|] eqn:E2; [|discriminate].
  destruct (getitem_key page (s "properties")) as [props|] eqn:E4;
    [|discriminate].
  destruct (getitem_key props (s "Name")) as [name|] eqn:E5; [|discriminate].
  destruct (getitem_key name (s "title")) as [title|] eqn:E6;
    [|discriminate].
  destruct (getitem_key page (s "id")) as [page_id|] eqn:E3; [|discriminate].
  intros H. inversion H. subst. cbn [m_name m_id]. split.
  - now apply truthy_py_or.
  - exists resp, pages, page.
    split; [reflexivity|]. split; [exact E1|]. split; [exact E2|].
    split; [exact E3|].
    exists props, name, title.
    split; [exact E4|]. split; [exact E5|]. split; [exact E6|].
    split; [reflexivity|]. now apply py_or_safe_text.
Qed.

Lemma found_member_has_id_and_name_witness :
  truthy (m_name Sample.ann) = true
  /\ exists resp pages page,
       databases_query (Sample.world None None)
         (find_member_kwargs (Sample.world None None)
            (PStr (s "+14155552671"))) = Some resp
       /\ getitem_key resp (s "results") = Ok pages
       /\ getitem_0 pages = Ok page
       /\ getitem_key page (s "id") = Ok (m_id Sample.ann)
       /\ exists props name title,
            getitem_key page (s "properties") = Ok props
            /\ getitem_key props (s "Name") = Ok name
            /\ getitem_key name (s "title") = Ok title
            /\ m_name Sample.ann =
               py_or (safe_text title) (PStr (s "Team member"))
            /\ m_name Sample.ann = title_text title "Team member".
Proof.
  refine (@found_member_has_id_and_name (Sample.world None None)
            (PStr (s "+14155552671")) initial _ Sample.ann _).
  reflexivity.
Defined.

Example member_without_title_text :
  fst (notion_find_member_by_phone
         (Scenario.world [] true
            (Scenario.results
               [PDict [(s "id", PStr (s "member-9"));
                       (s "properties",
                        PDict [(s "Name", PDict [(s "title", PList [])])])]])
            None None None None None None)
         (PStr (s "+14155552671")) initial)
  = Ok (Some {| m_id := PStr (s "member-9");
                m_name := PStr (s "Team member") |}).
Proof. reflexivity. Qed.

Lemma tasks_of_pages_follow (pages : list pyval) (tasks : list Task) :
  tasks_of_pages pages = Ok tasks ->
  Forall2 (fun p t =>
             getitem_key p (s "id") = Ok (t_id t)
             /\ truthy (t_title t) = true
             /\ exists props task title,
                  getitem_key p (s "properties") = Ok props
                  /\ getitem_key props (s "Task") = Ok task
                  /\ getitem_key task (s "title") = Ok title
                  /\ t_title t =
                     py_or (safe_text title) (PStr (s "Untitled"))
                  /\ t_title t = title_text title "Untitled")
          pages tasks.
Proof.
  revert tasks. induction pages as [|p rest IH]; intros tasks H.
  - inversion H. constructor.
  - cbn [tasks_of_pages] in H. unfold rbind in H.
    destruct (task_of_page p) as [t|] eqn:Et; [|discriminate].
    destruct (tasks_of_pages rest) as [out|]; [|discriminate].
    inversion H. subst. constructor; [|now apply IH].
    unfold task_of_page, rbind in Et.
    destruct (getitem_key p (s "properties")) as [props|] eqn:E1;
      [|discriminate].
    destruct (getitem_key p (s "id")) as [page_id|]; [|discriminate].
    destruct (getitem_key props (s "Task")) as [task|] eqn:E2;
      [|discriminate].
    destruct (getitem_key task (s "title")) as [title|] eqn:E3;
      [|discriminate].
    repeat match type of Et with
           | match ?x with _ => _ end = _ => destruct x; [|discriminate]
           end.
    inversion Et. cbn [t_id t_title]. split; [reflexivity|].
    split; [now apply truthy_py_or|].
    exists props, task, title.
    split; [reflexivity|]. split; [exact E2|]. split; [exact E3|].
    split; [reflexivity|]. now apply py_or_safe_text.
Qed.

(** X9. The tasks [notion_get_tasks_for_member_week] returns follow the
    pages of the answer one for one and in order: each task has the id of
    its page, and its title is
    [safe_text(props["Task"]["title"]) or "Untitled"], that is the
    [plain_text] of the first item of the page's title when that is set and
    truthy, and "Untitled" in every other case; so the title is never
    empty. *)
Theorem tasks_follow_pages
    (w : World) (member_id week : pyval) (st st' : State)
    (tasks : list Task) :
  notion_get_tasks_for_member_week w member_id week st = (Ok tasks, st') ->
  exists resp results pages,
    databases_query w (get_tasks_kwargs w member_id week) = Some resp
    /\ py_get resp (s "results") (PList []) = Ok results
    /\ py_iter results = Ok pages
    /\ Forall2 (fun p t =>
                  getitem_key p (s "id") = Ok (t_id t)
                  /\ truthy (t_title t) = true
                  /\ exists props task title,
                       getitem_key p (s "properties") = Ok props
                       /\ getitem_key props (s "Task") = Ok task
                       /\ getitem_key task (s "title") = Ok title
                       /\ t_title t =
                          py_or (safe_text title) (PStr (s "Untitled"))
                       /\ t_title t = title_text title "Untitled")
               pages tasks.
Proof.
  unfold notion_get_tasks_for_member_week, bind, service, lift. cbv zeta.
  destruct (databases_query w (get_tasks_kwargs w member_id week))
    as [resp|]; [|discriminate].
  unfold rbind.
  destruct (py_get resp (s "results") (PList [])) as [results|] eqn:E1;
    [|discriminate].
  destruct (py_iter results) as [pages|] eqn:E2; [|discriminate].
  destruct (tasks_of_pages pages) as [out|] eqn:Et; [|discriminate].
  intros H. inversion H. subst.
  exists resp, results, pages.
  split; [reflexivity|]. split; [exact E1|]. split; [exact E2|].
  now apply tasks_of_pages_follow.
Qed.

Lemma tasks_follow_pages_witness :
  exists resp results pages,
    databases_query (Sample.world None None)
      (get_tasks_kwargs (Sample.world None None) (PStr (s "member-1"))
         (PStr Sample.week)) = Some resp
    /\ py_get resp (s "results") (PList []) = Ok results
    /\ py_iter results = Ok pages
    /\ Forall2 (fun p t =>
                  getitem_key p (s "id") = Ok (t_id t)
                  /\ truthy (t_title t) = true
                  /\ exists props task title,
                       getitem_key p (s "properties") = Ok props
                       /\ getitem_key props (s "Task") = Ok task
                       /\ getitem_key task (s "title") = Ok title
                       /\ t_title t =
                          py_or (safe_text title) (PStr (s "Untitled"))
                       /\ t_title t = title_text title "Untitled")
               pages Sample.tasks.
Proof.
  refine (@tasks_follow_pages (Sample.world None None) (PStr (s "member-1"))
            (PStr Sample.week) initial _ Sample.tasks _).
  reflexivity.
Defined.

Example task_without_title_text :
  tasks_of_pages
    [PDict [(s "id", PStr (s "task-7"));
            (s "properties",
             PDict [(s "Task", PDict [(s "title", PList [])])])]]
  = Ok [{| t_id := PStr (s "task-7");
           t_title := PStr (s "Untitled");
           t_status := PNone;
           t_progress := PNone;
           t_due := PNone |}].
Proof. reflexivity. Qed.

(* ================================================================== *)
(** ** The week key *)
(* ================================================================== *)

Lemma s_inj (a b : string) : s a = s b -> a = b.
Proof.
  unfold s. intros H.
  assert (Hl : list_ascii_of_string a = list_ascii_of_string b).
  { revert H. generalize (list_ascii_of_string a) (list_ascii_of_string b).
    induction l as [|x l IH]; intros [|y l'] H; try discriminate;
      [reflexivity|].
    cbn [List.map] in H. inversion H as [[Hx Hr]].
    apply (f_equal ascii_of_N) in Hx. rewrite !ascii_N_embedding in Hx.
    subst y. f_equal. now apply IH. }
  apply (f_equal string_of_list_ascii) in Hl.
  now rewrite !string_of_list_ascii_of_string in Hl.
Qed.

(** The decimal text of an integer determines it. *)
Lemma str_of_Z_inj (a b : Z) : str_of_Z a = str_of_Z b -> a = b.
Proof.
  unfold str_of_Z. intros H. apply s_inj in H.
  apply (f_equal NilZero.int_of_string) in H.
  assert (Hnil : forall z, Z.to_int z <> Decimal.Pos Decimal.Nil
                           /\ Z.to_int z <> Decimal.Neg Decimal.Nil).
  { intros [|p|p]; cbn [Z.to_int]; split; try discriminate;
      intros E; inversion E as [E'];
      exact (DecimalPos.Unsigned.to_uint_nonnil _ E'). }
  rewrite !NilZero.isi in H by apply Hnil.
  inversion H as [H']. apply (f_equal Z.of_int) in H'.
  now rewrite !DecimalZ.of_to in H'.
Qed.

Lemma string_of_uint_no_W (d : Decimal.uint) :
  Forall (fun c => c <> 87%N) (s (NilEmpty.string_of_uint d)).
Proof.
  induction d; cbn [NilEmpty.string_of_uint]; unfold s in *;
    cbn [list_ascii_of_string List.map]; constructor;
    try assumption; discriminate.
Qed.

(** The decimal text of an integer has no letter W. *)
Lemma str_of_Z_no_W (z : Z) : Forall (fun c => c <> 87%N) (str_of_Z z).
Proof.
  unfold str_of_Z.
  assert (Hu : forall d, Forall (fun c => c <> 87%N)
                           (s (NilZero.string_of_uint d))).
  { intros d. destruct d; try apply string_of_uint_no_W.
    repeat constructor. discriminate. }
  destruct (Z.to_int z) as [d|d]; cbn [NilZero.string_of_int].
  - apply Hu.
  - unfold s. cbn [list_ascii_of_string List.map].
    constructor; [discriminate|apply Hu].
Qed.

(** Two texts cut at "-W" agree piece by piece when the first pieces have no
    letter W. *)
Lemma split_at_W (a a' b b' : pystr) :
  Forall (fun c => c <> 87%N) a -> Forall (fun c => c <> 87%N) a' ->
  a ++ s "-W" ++ b = a' ++ s "-W" ++ b' -> a = a' /\ b = b'.
Proof.
  intros Ha. revert a'. induction Ha as [|c a Hc Ha IH]; intros a' Ha' H.
  - destruct Ha' as [|c' a' Hc' Ha'].
    + cbn in H. inversion H. now split.
    + exfalso. cbn in H. inversion H as [[E1 E2]].
      destruct Ha' as [|c2 a2 Hc2 Ha2]; cbn in E2; inversion E2; congruence.
  - destruct Ha' as [|c' a' Hc' Ha'].
    + exfalso. cbn in H. inversion H as [[E1 E2]].
      destruct Ha as [|c2 a2 Hc2 Ha2]; cbn in E2; inversion E2; congruence.
    + cbn [app] in H. inversion H as [[E1 E2]].
      destruct (IH a' Ha' E2) as [-> ->]. now split.
Qed.

(** The two-digit texts of the week numbers 1 to 53 are pairwise
    different. *)
Lemma format_02d_inj (a b : Z) :
  (1 <= a <= 53)%Z -> (1 <= b <= 53)%Z ->
  format_02d a = format_02d b -> a = b.
Proof.
  intros Ha Hb H.
  assert (Hall :
    forallb (fun x => forallb (fun y =>
       implb (str_eqb (format_02d (Z.of_nat x)) (format_02d (Z.of_nat y)))
             (Nat.eqb x y)) (seq 1 53)) (seq 1 53) = true)
    by (vm_compute; reflexivity).
  rewrite forallb_forall in Hall.
  assert (Hin : forall z, (1 <= z <= 53)%Z -> In (Z.to_nat z) (seq 1 53))
    by (intros z Hz; apply in_seq; lia).
  specialize (Hall _ (Hin a Ha)). rewrite forallb_forall in Hall.
  specialize (Hall _ (Hin b Hb)).
  rewrite !Z2Nat.id in Hall by lia.
  rewrite H, str_eqb_refl in Hall. cbn [implb] in Hall.
  apply Nat.eqb_eq in Hall. lia.
Qed.

(** X10. Two dates get the same week key from [iso_week_key] exactly when
    they have the same ISO year and the same ISO week (a week number is
    between 1 and 53). *)
Theorem iso_week_key_same_iff
    (w : World) (d1 d2 : isocalendar) (st1 st2 : State) :
  (1 <= iso_week d1 <= 53)%Z -> (1 <= iso_week d2 <= 53)%Z ->
  fst (iso_week_key w (Some d1) st1) = fst (iso_week_key w (Some d2) st2)
  <-> iso_year d1 = iso_year d2 /\ iso_week d1 = iso_week d2.
Proof.
  intros H1 H2. unfold iso_week_key, bind, ret. cbn [fst]. split.
  - intros H. inversion H as [H'].
    apply split_at_W in H'; try apply str_of_Z_no_W.
    destruct H' as [Hy Hw]. split.
    + now apply str_of_Z_inj.
    + now apply format_02d_inj.
  - intros [Hy Hw]. now rewrite Hy, Hw.
Qed.

Lemma iso_week_key_same_iff_witness :
  fst (iso_week_key (Sample.world None None)
         (Some {| iso_year := 2026; iso_week := 2; iso_weekday := 1 |})
         initial)
  = fst (iso_week_key (Sample.world None None)
           (Some {| iso_year := 2026; iso_week := 2; iso_weekday := 7 |})
           initial).
Proof.
  refine (proj2 (@iso_week_key_same_iff (Sample.world None None)
                   {| iso_year := 2026; iso_week := 2; iso_weekday := 1 |}
                   {| iso_year := 2026; iso_week := 2; iso_weekday := 7 |}
                   initial initial _ _) _).
  - cbn [iso_week]. lia.
  - cbn [iso_week]. lia.
  - split; reflexivity.
Defined.

(* ================================================================== *)
(** ** The decision and the writes it allows *)
(* ================================================================== *)

Lemma lookup_fold_setdefault (k : pystr) (defaults kvs : list (pystr * pyval)) :
  lookup k (fold_left (fun acc kv => setdefault_items (fst kv) (snd kv) acc)
              defaults kvs) =
  match lookup k kvs with
  | Some v => Some v
  | None => lookup k defaults
  end.
Proof.
  revert kvs. induction defaults as [|[k0 v0] rest IH]; intros kvs.
  - cbn [fold_left lookup]. now destruct (lookup k kvs).
  - cbn [fold_left fst snd]. rewrite IH, lookup_setdefault_items.
    cbn [lookup]. destruct (lookup k kvs); [reflexivity|].
    destruct (str_eqb k k0); reflexivity.
Qed.

(** X11. When the model's output parses to a dictionary, the decision
    [ai_parse_update] returns has every key of the record with its value,
    and each of the seven keys of a decision: a missing one has the default
    ([0.0] for the confidence, [None] for the others).  Output that parses
    to anything but a dictionary makes the interpreter raise
    [AttributeError]. *)
Theorem decision_has_every_key
    (w : World) (message : pystr) (tasks : list Task) (st : State)
    (text : pystr) (data : pyval) :
  responses_create w message (task_list_from 0 tasks) = Some text ->
  json_loads w text = Some data ->
  match data with
  | PDict kvs =>
      exists kvs',
        fst (ai_parse_update w message tasks st) = Ok (PDict kvs')
        /\ (forall k, lookup k kvs' =
                      match lookup k kvs with
                      | Some v => Some v
                      | None => lookup k decision_defaults
                      end)
        /\ (forall k, In k decision_keys -> lookup k kvs' <> None)
  | _ => fst (ai_parse_update w message tasks st) = Raise AttributeError
  end.
Proof.
  intros Hr Hj.
  rewrite (@ai_parse_update_run w message tasks st text data Hr Hj).
  cbn [fst]. destruct data; try reflexivity.
  exists (fold_left (fun acc kv => setdefault_items (fst kv) (snd kv) acc)
            decision_defaults kvs).
  split; [reflexivity|].
  split; [intros k; apply lookup_fold_setdefault|].
  intros k Hin. rewrite lookup_fold_setdefault.
  destruct (lookup k kvs); [discriminate|].
  cbn [decision_keys In] in Hin.
  repeat (destruct Hin as [<-|Hin]; [discriminate|]). contradiction.
Qed.

Lemma decision_has_every_key_witness :
  fst (ai_parse_update
         (Scenario.world [] true Scenario.one_member Scenario.two_tasks None
            None None (Some (s "[1, 2]")) (Some (PList [PInt 1; PInt 2])))
         (s "done") Sample.tasks initial)
  = Raise AttributeError.
Proof.
  exact (@decision_has_every_key
           (Scenario.world [] true Scenario.one_member Scenario.two_tasks
              None None None (Some (s "[1, 2]"))
              (Some (PList [PInt 1; PInt 2])))
           (s "done") Sample.tasks initial (s "[1, 2]")
           (PList [PInt 1; PInt 2]) eq_refl eq_refl).
Defined.

(** The calls [apply_parsed] makes: none, or, for a decision that lets the
    handler write, the field update, then the page read, then the log
    write, up to the first call that fails. *)
Lemma apply_parsed_calls (w : World) (member : Member) (body : pystr)
    (parsed : pyval) (kvs : list (pystr * pyval)) (st : State)
    (r : result Response) (st' : State) :
  parsed = PDict kvs ->
  apply_parsed w member body parsed st = (r, st') ->
  trace st' = trace st
  \/ (confident w parsed
      /\ exists properties,
           update_properties w (utcnow_isoformat w (ticks st))
             (field parsed "status") (field parsed "progress")
             (field parsed "blocker") (field parsed "needs_attention")
           = Ok properties
           /\ (trace st' =
               trace st ++
               [PagesUpdate (field parsed "task_id") (PDict properties)]
               \/ trace st' =
                  trace st ++
                  [PagesUpdate (field parsed "task_id") (PDict properties);
                   PagesRetrieve (field parsed "task_id")]
               \/ exists text,
                    trace st' =
                    trace st ++
                    [PagesUpdate (field parsed "task_id") (PDict properties);
                     PagesRetrieve (field parsed "task_id");
                     PagesUpdate (field parsed "task_id")
                       (log_properties text)])).
Proof.
  intros Hk H. unfold apply_parsed in H.
  rewrite bind_lift in H.
  destruct (confidence_of w parsed) as [c|e] eqn:Hc;
    [|inversion H; now left].
  rewrite bind_lift, (py_get_field "followup" Hk) in H.
  destruct (PrimFloat.ltb c threshold) eqn:Hlt; cbn [orb] in H;
    [inversion H; now left|].
  destruct (truthy (field parsed "followup")) eqn:Hf;
    [inversion H; now left|].
  rewrite bind_lift, (py_get_field "task_id" Hk) in H.
  destruct (truthy (field parsed "task_id")) eqn:Ht; cbn [negb] in H;
    [|inversion H; now left].
  rewrite bind_lift, (py_get_field "status" Hk) in H.
  rewrite bind_lift, (py_get_field "progress" Hk) in H.
  rewrite bind_lift, (py_get_field "blocker" Hk) in H.
  rewrite bind_lift, (py_get_field "needs_attention" Hk) in H.
  destruct (update_properties w (utcnow_isoformat w (ticks st))
              (field parsed "status") (field parsed "progress")
              (field parsed "blocker") (field parsed "needs_attention"))
    as [properties|e] eqn:Hp.
  - right. split; [exists c; repeat split; assumption|].
    exists properties. split; [reflexivity|].
    unfold bind at 1 in H. erewrite notion_update_task_run in H by exact Hp.
    destruct (pages_update w (field parsed "task_id") (PDict properties));
      [|inversion H; now left].
    unfold bind at 1 in H. unfold read_clock at 1 in H.
    unfold bind at 1 in H. rewrite notion_append_log_run in H.
    destruct (pages_retrieve w (field parsed "task_id")) as [page|];
      [|inversion H; right; left; cbn [log tick trace];
        now rewrite <- app_assoc].
    cbv zeta in H. right. right.
    exists (next_log (current_log page)
              (utcnow_isoformat w (ticks (log (PagesUpdate
                 (field parsed "task_id") (PDict properties)) (tick st)))
               ++ s " | " ++ py_str w (m_name member) ++ s ": " ++ body)).
    destruct (pages_update w (field parsed "task_id") (log_properties _)).
    + destruct (eq_str (field parsed "status") (s "Done"));
        [|destruct (eq_str (field parsed "status") (s "Blocked"))];
        inversion H; cbn [log tick trace]; now rewrite <- !app_assoc.
    + inversion H. cbn [log tick trace]. now rewrite <- !app_assoc.
  - left. unfold bind at 1, notion_update_task, bind, read_clock, lift in H.
    rewrite Hp in H. now inversion H.
Qed.

(** A run of [twilio_inbound] ends before the interpretation with no write,
    or goes the way of [apply_parsed] on the decision. *)
Lemma twilio_inbound_stages (w : World) (request : Request)
    (r : result Response) (st : State) :
  twilio_inbound w request initial = (r, st) ->
  writes st = []
  \/ exists member week tasks parsed st0,
       interpreted w request member week tasks parsed st0
       /\ apply_parsed w member (body_of (form request)) parsed st0 = (r, st).
Proof.
  intros H.
  destruct (signature_refused w request (get_full_url request)) eqn:Hsig.
  { left. revert H. unfold twilio_inbound, bind. cbv zeta.
    rewrite require_twilio_signature_run, Hsig. intros H. now inversion H. }
  destruct (body_of (form request)) as [|c body] eqn:Hb.
  { left. revert H. unfold twilio_inbound, bind. cbv zeta.
    rewrite require_twilio_signature_run, Hsig, Hb. intros H.
    now inversion H. }
  rewrite <- Hb.
  destruct (notion_find_member_by_phone w
              (PStr (normalize_phone (from_raw_of (form request)))) initial)
    as [[[member|]|e] st1] eqn:Hm;
    pose proof Hm as Hst1; apply notion_find_member_by_phone_state in Hst1;
    try (left; revert H; unfold twilio_inbound, bind; cbv zeta;
         rewrite require_twilio_signature_run, Hsig, Hb, Hm;
         intros H; inversion H; subst; reflexivity).
  destruct (iso_week_key w None st1) as [[week|e] st2] eqn:Hw;
    [|unfold iso_week_key, bind, read_clock, ret in Hw; discriminate].
  pose proof Hw as Hst2. apply iso_week_key_today_state in Hst2.
  destruct (notion_get_tasks_for_member_week w (m_id member) (PStr week) st2)
    as [[[|t tasks]|e] st3] eqn:Ht;
    pose proof Ht as Hst3;
    apply notion_get_tasks_for_member_week_state in Hst3;
    try (left; revert H; unfold twilio_inbound, bind; cbv zeta;
         rewrite require_twilio_signature_run, Hsig, Hb, Hm, Hw, Ht;
         intros H; inversion H; subst; reflexivity).
  assert (Hl : tasks_loaded w request member week (t :: tasks) st3).
  { exists initial, st1, st2. rewrite require_twilio_signature_run, Hsig, Hb.
    repeat split; try assumption; discriminate. }
  rewrite (twilio_inbound_tasks_loaded Hl) in H. unfold bind in H.
  destruct (ai_parse_update w (body_of (form request)) (t :: tasks) st3)
    as [[parsed|e] st4] eqn:Hp.
  - right. exists member, week, (t :: tasks), parsed, st4.
    split; [exists st3; split; assumption|exact H].
  - left. apply ai_parse_update_state in Hp. inversion H. subst.
    reflexivity.
Qed.

(** X12. [twilio_inbound] writes to the store only for a decision that
    lets it: if a run makes any page update, the interpreter has returned a
    decision whose confidence is not below 0.7, that has no follow-up and
    names a task; the writes are then the field update of that task, alone
    or followed by the log write of the same task.  No run makes two field
    updates, or a log write without the field update before it. *)
Theorem writes_only_for_confident_decision
    (w : World) (request : Request) (r : result Response) (st : State) :
  twilio_inbound w request initial = (r, st) ->
  writes st <> [] ->
  exists member week tasks parsed st0 properties,
    interpreted w request member week tasks parsed st0
    /\ confident w parsed
    /\ update_properties w (utcnow_isoformat w 1)
         (field parsed "status") (field parsed "progress")
         (field parsed "blocker") (field parsed "needs_attention")
       = Ok properties
    /\ (writes st =
        [PagesUpdate (field parsed "task_id") (PDict properties)]
        \/ exists text,
             writes st =
             [PagesUpdate (field parsed "task_id") (PDict properties);
              PagesUpdate (field parsed "task_id") (log_properties text)]).
Proof.
  intros H Hw.
  destruct (@twilio_inbound_stages _ _ _ _ H)
    as [Hnone|(member & week & tasks & parsed & st0 & Hi & Ha)];
    [contradiction|].
  pose proof (interpreted_state Hi) as Hst0.
  destruct Hi as (st00 & Hl & Hp).
  destruct (ai_parse_update_dict _ _ _ _ Hp) as [kvs Hk].
  destruct (@apply_parsed_calls _ _ _ _ _ _ _ _ Hk Ha)
    as [Hsame|(Hc & properties & Hprops & Hcalls)].
  - exfalso. apply Hw. unfold writes. rewrite Hsame, Hst0. reflexivity.
  - exists member, week, tasks, parsed, st0, properties.
    split; [exists st00; split; assumption|].
    split; [exact Hc|].
    split; [now rewrite Hst0 in Hprops|].
    unfold writes.
    destruct Hcalls as [Hc1|[Hc2|(text & Hc3)]].
    + left. rewrite Hc1, Hst0, filter_app. reflexivity.
    + left. rewrite Hc2, Hst0, filter_app. reflexivity.
    + right. exists text. rewrite Hc3, Hst0, filter_app. reflexivity.
Qed.

Lemma writes_only_for_confident_decision_witness :
  exists member week tasks parsed st0 properties,
    interpreted (Sample.deciding Scenario.done)
      (Sample.message "finished the report") member week tasks parsed st0
    /\ confident (Sample.deciding Scenario.done) parsed
    /\ update_properties (Sample.deciding Scenario.done)
         (utcnow_isoformat (Sample.deciding Scenario.done) 1)
         (field parsed "status") (field parsed "progress")
         (field parsed "blocker") (field parsed "needs_attention")
       = Ok properties
    /\ (writes (snd (twilio_inbound (Sample.deciding Scenario.done)
                       (Sample.message "finished the report") initial)) =
        [PagesUpdate (field parsed "task_id") (PDict properties)]
        \/ exists text,
             writes (snd (twilio_inbound (Sample.deciding Scenario.done)
                            (Sample.message "finished the report") initial)) =
             [PagesUpdate (field parsed "task_id") (PDict properties);
              PagesUpdate (field parsed "task_id") (log_properties text)]).
Proof.
  refine (@writes_only_for_confident_decision (Sample.deciding Scenario.done)
            (Sample.message "finished the report")
            (fst (twilio_inbound (Sample.deciding Scenario.done)
                    (Sample.message "finished the report") initial))
            (snd (twilio_inbound (Sample.deciding Scenario.done)
                    (Sample.message "finished the report") initial)) _ _).
  - apply surjective_pairing.
  - vm_compute. discriminate.
Defined.

(** The start of [apply_parsed] on a decision that lets the handler
    write. *)
Lemma apply_parsed_confident (w : World) (member : Member) (body : pystr)
    (parsed : pyval) (kvs : list (pystr * pyval)) (st : State) :
  parsed = PDict kvs ->
  confident w parsed ->
  apply_parsed w member body parsed st =
  bind (notion_update_task w (field parsed "task_id") (field parsed "status")
          (field parsed "progress") (field parsed "blocker")
          (field parsed "needs_attention"))
       (fun _ =>
          bind (read_clock (utcnow_isoformat w))
            (fun now =>
               bind (notion_append_log w (field parsed "task_id")
                       (now ++ s " | " ++ py_str w (m_name member) ++
                        s ": " ++ body))
                 (fun _ => lift (twiml (confirmation (field parsed "status"))))))
       st.
Proof.
  intros Hk (c & Hc & Hlt & Hf & Ht). unfold apply_parsed.
  rewrite bind_lift, Hc, bind_lift, (py_get_field "followup" Hk), Hlt, Hf.
  cbn [orb].
  rewrite bind_lift, (py_get_field "task_id" Hk), Ht. cbn [negb].
  rewrite bind_lift, (py_get_field "status" Hk).
  rewrite bind_lift, (py_get_field "progress" Hk).
  rewrite bind_lift, (py_get_field "blocker" Hk).
  rewrite bind_lift, (py_get_field "needs_attention" Hk).
  unfold bind, confirmation.
  destruct (notion_update_task _ _ _ _ _ _ st) as [[[]|e] st1]; [|reflexivity].
  destruct (read_clock (utcnow_isoformat w) st1) as [[now|e] st2];
    [|reflexivity].
  destruct (notion_append_log _ _ _ st2) as [[[]|e] st3]; [|reflexivity].
  destruct (eq_str (field parsed "status") (s "Done")); [reflexivity|].
  destruct (eq_str (field parsed "status") (s "Blocked")); reflexivity.
Qed.

Lemma twiml_confirmation (status : pyval) :
  twiml (confirmation status) = Ok (Twiml (confirmation status)).
Proof.
  unfold confirmation.
  destruct (eq_str status (s "Done")); [reflexivity|].
  destruct (eq_str status (s "Blocked")); reflexivity.
Qed.

(** X13. The two writes are not transactional.  For a decision that lets
    the handler write and whose values convert, the outcome follows the
    store: if the field update is refused, nothing else is tried and the
    handler ends with the error; if the page read of the log append fails,
    the field update has been made and stays, and the handler ends with the
    error; if only the log write fails, both requests have been sent and the
    handler ends with the error; otherwise it replies with the
    confirmation. *)
Theorem writes_are_not_transactional
    (w : World) (request : Request) (member : Member) (week : pystr)
    (tasks : list Task) (parsed : pyval) (st : State)
    (properties : list (pystr * pyval)) :
  interpreted w request member week tasks parsed st ->
  confident w parsed ->
  update_properties w (utcnow_isoformat w 1) (field parsed "status")
    (field parsed "progress") (field parsed "blocker")
    (field parsed "needs_attention") = Ok properties ->
  twilio_inbound w request initial =
  match pages_update w (field parsed "task_id") (PDict properties) with
  | None =>
      (Raise (ServiceError (s "notion")),
       {| trace := calls_before_decision w request member week tasks ++
                   [PagesUpdate (field parsed "task_id") (PDict properties)];
          ticks := 2 |})
  | Some _ =>
      match pages_retrieve w (field parsed "task_id") with
      | None =>
          (Raise (ServiceError (s "notion")),
           {| trace := calls_before_decision w request member week tasks ++
                       [PagesUpdate (field parsed "task_id")
                          (PDict properties);
                        PagesRetrieve (field parsed "task_id")];
              ticks := 3 |})
      | Some page =>
          (match pages_update w (field parsed "task_id")
                   (log_properties
                      (next_log (current_log page)
                         (log_line w (utcnow_isoformat w 2) member
                            (body_of (form request))))) with
           | Some _ => Ok (Twiml (confirmation (field parsed "status")))
           | None => Raise (ServiceError (s "notion"))
           end,
           {| trace := calls_before_decision w request member week tasks ++
                       [PagesUpdate (field parsed "task_id")
                          (PDict properties);
                        PagesRetrieve (field parsed "task_id");
                        PagesUpdate (field parsed "task_id")
                          (log_properties
                             (next_log (current_log page)
                                (log_line w (utcnow_isoformat w 2) member
                                   (body_of (form request)))))];
              ticks := 3 |})
      end
  end.
Proof.
  intros Hi Hc Hp.
  rewrite (twilio_inbound_interpreted Hi).
  pose proof (interpreted_state Hi) as Hst.
  destruct Hi as (st0 & _ & Hparse).
  destruct (ai_parse_update_dict _ _ _ _ Hparse) as [kvs Hk].
  rewrite (@apply_parsed_confident _ _ _ _ _ _ Hk Hc). subst st.
  unfold bind at 1. erewrite notion_update_task_run by exact Hp.
  destruct (pages_update w (field parsed "task_id") (PDict properties));
    [|reflexivity].
  unfold bind at 1. unfold read_clock at 1.
  unfold bind at 1. rewrite notion_append_log_run.
  cbn [ticks log tick trace]. unfold log_line.
  destruct (pages_retrieve w (field parsed "task_id")) as [page|].
  - cbv zeta.
    destruct (pages_update w (field parsed "task_id") (log_properties _));
      unfold ret, lift, log; rewrite ?twiml_confirmation;
      cbn [trace ticks app].
    all: rewrite <- ?app_assoc; reflexivity.
  - reflexivity.
Qed.

Lemma writes_are_not_transactional_witness :
  twilio_inbound
    (Scenario.world [] true Scenario.one_member Scenario.two_tasks None
       (Some PNone) (Some PNone) (Some (s "(the model's output)"))
       (Some (PDict Scenario.done)))
    (Sample.message "finished the report") initial =
  (Raise (ServiceError (s "notion")),
   {| trace :=
        calls_before_decision
          (Scenario.world [] true Scenario.one_member Scenario.two_tasks None
             (Some PNone) (Some PNone) (Some (s "(the model's output)"))
             (Some (PDict Scenario.done)))
          (Sample.message "finished the report") Sample.ann Sample.week
          Sample.tasks ++
        [PagesUpdate (PStr (s "task-1"))
           (PDict [(s "Last Update", date_value (s "2026-01-05T10:00:01"));
                   (s "Status", select_value (PStr (s "Done")));
                   (s "Progress %", number_value 100)]);
         PagesRetrieve (PStr (s "task-1"))];
      ticks := 3 |}).
Proof.
  refine (@writes_are_not_transactional
            (Scenario.world [] true Scenario.one_member Scenario.two_tasks
               None (Some PNone) (Some PNone)
               (Some (s "(the model's output)")) (Some (PDict Scenario.done)))
            (Sample.message "finished the report") Sample.ann Sample.week
            Sample.tasks (PDict (Scenario.done ++ Sample.defaults)) _
            [(s "Last Update", date_value (s "2026-01-05T10:00:01"));
             (s "Status", select_value (PStr (s "Done")));
             (s "Progress %", number_value 100)] _ _ _).
  - reach.
  - exists 0.75%float. repeat split.
  - reflexivity.
Defined.

(** X14. A decision that lets the handler write but whose progress [int()]
    refuses, or whose blocker cannot be sliced, is dropped: the handler ends
    with the conversion's exception, having sent nothing to the store, and
    returns no reply. *)
Theorem unconvertible_decision_is_dropped
    (w : World) (request : Request) (member : Member) (week : pystr)
    (tasks : list Task) (parsed : pyval) (st : State) (e : exn) :
  interpreted w request member week tasks parsed st ->
  confident w parsed ->
  update_properties w (utcnow_isoformat w 1) (field parsed "status")
    (field parsed "progress") (field parsed "blocker")
    (field parsed "needs_attention") = Raise e ->
  twilio_inbound w request initial =
  (Raise e,
   {| trace := calls_before_decision w request member week tasks;
      ticks := 2 |}).
Proof.
  intros Hi Hc Hp.
  rewrite (twilio_inbound_interpreted Hi).
  pose proof (interpreted_state Hi) as Hst.
  destruct Hi as (st0 & _ & Hparse).
  destruct (ai_parse_update_dict _ _ _ _ Hparse) as [kvs Hk].
  rewrite (@apply_parsed_confident _ _ _ _ _ _ Hk Hc). subst st.
  unfold bind at 1, notion_update_task, bind, read_clock, lift.
  cbn [ticks]. now rewrite Hp.
Qed.

Lemma unconvertible_decision_is_dropped_witness :
  twilio_inbound
    (Sample.deciding [(s "task_id", PStr (s "task-1"));
                      (s "progress", PList [PInt 60]);
                      (s "confidence", PFloat 0.75)])
    (Sample.message "60 percent") initial =
  (Raise TypeError,
   {| trace :=
        calls_before_decision
          (Sample.deciding [(s "task_id", PStr (s "task-1"));
                            (s "progress", PList [PInt 60]);
                            (s "confidence", PFloat 0.75)])
          (Sample.message "60 percent") Sample.ann Sample.week Sample.tasks;
      ticks := 2 |}).
Proof.
  refine (@unconvertible_decision_is_dropped
            (Sample.deciding [(s "task_id", PStr (s "task-1"));
                              (s "progress", PList [PInt 60]);
                              (s "confidence", PFloat 0.75)])
            (Sample.message "60 percent") Sample.ann Sample.week Sample.tasks
            (PDict [(s "task_id", PStr (s "task-1"));
                    (s "progress", PList [PInt 60]);
                    (s "confidence", PFloat 0.75);
                    (s "status", PNone); (s "blocker", PNone);
                    (s "needs_attention", PNone); (s "followup", PNone)])
            _ TypeError _ _ _).
  - reach.
  - exists 0.75%float. repeat split.
  - reflexivity.
Defined.

(* ================================================================== *)
(** ** The update log, further *)
(* ================================================================== *)

Lemma strip_ends_with_text (x : pystr) :
  strip x <> [] -> ends_with_text (strip x) = true.
Proof.
  unfold strip, rstrip, ends_with_text. rewrite rev_involutive. intros H.
  destruct (lstrip_result (rev (lstrip x))) as [E|E]; [|exact E].
  rewrite E in H. now contradiction H.
Qed.

Lemma ends_with_text_app (x y : pystr) :
  ends_with_text y = true -> ends_with_text (x ++ y) = true.
Proof.
  unfold ends_with_text. intros H. rewrite rev_app_distr.
  now apply starts_with_text_app.
Qed.

(** The audit line of a message with a body ends with the last character
    of the body, which is no white space. *)
Lemma log_line_ends_with_text (w : World) (now : pystr) (member : Member)
    (request : Request) :
  body_of (form request) <> [] ->
  ends_with_text (log_line w now member (body_of (form request))) = true.
Proof.
  intros H. unfold log_line.
  rewrite !app_assoc. apply ends_with_text_app.
  unfold body_of in *. now apply strip_ends_with_text.
Qed.

(** X15. When the appended line starts and ends with a character that is
    no white space and the combined text fits in 1800 characters,
    [notion_append_log] stores the old log (without white space at its
    start), a line feed and the line: the line is the end of the stored
    text.  On an empty or blank log the stored text is the line itself. *)
Theorem next_log_appends_when_it_fits (current line : pystr) :
  starts_with_text line = true ->
  ends_with_text line = true ->
  List.length (lstrip (current ++ nl)) + List.length line <= 1800 ->
  next_log current line = lstrip (current ++ nl) ++ line
  /\ (blank current = true -> next_log current line = line).
Proof.
  intros Hs He Hlen.
  assert (Hn : next_log current line = lstrip (current ++ nl) ++ line).
  { unfold next_log, strip. cbv zeta. rewrite app_assoc.
    rewrite lstrip_app_text by exact Hs.
    rewrite rstrip_app_text by exact He.
    apply firstn_all2. rewrite length_app. exact Hlen. }
  split; [exact Hn|].
  intros Hb. rewrite Hn. rewrite lstrip_blank; [reflexivity|].
  unfold blank in *. rewrite forallb_app, Hb. reflexivity.
Qed.

Lemma next_log_appends_when_it_fits_witness :
  next_log (s "  started") (s "2026-01-05T10:00:02 | Ann: done")
  = s "started" ++ nl ++ s "2026-01-05T10:00:02 | Ann: done".
Proof.
  refine (proj1 (@next_log_appends_when_it_fits (s "  started")
                   (s "2026-01-05T10:00:02 | Ann: done") _ _ _)).
  - reflexivity.
  - reflexivity.
  - apply Nat.leb_le. reflexivity.
Defined.

(** X16. Once the stored log starts with a character that is no white
    space and has 1800 characters or more, an append by [twilio_inbound]
    changes nothing: whatever the message, the text written back is the
    first 1800 characters of the old log. *)
Theorem full_log_is_frozen
    (w : World) (now current : pystr) (member : Member) (request : Request) :
  body_of (form request) <> [] ->
  starts_with_text current = true ->
  1800 <= List.length current ->
  next_log current (log_line w now member (body_of (form request)))
  = firstn 1800 current.
Proof.
  intros Hb Hs Hlen. unfold next_log, strip. cbv zeta.
  rewrite lstrip_text by now apply starts_with_text_app.
  rewrite app_assoc.
  rewrite rstrip_app_text by now apply log_line_ends_with_text.
  rewrite <- app_assoc, firstn_app.
  replace (1800 - List.length current) with 0 by lia.
  cbn [firstn]. apply app_nil_r.
Qed.

Lemma full_log_is_frozen_witness :
  next_log (repeat 120%N 1800)
    (log_line (Sample.world None None) (s "2026-01-05T10:00:02") Sample.ann
       (body_of (form (Sample.message "finished the report"))))
  = firstn 1800 (repeat 120%N 1800).
Proof.
  refine (@full_log_is_frozen (Sample.world None None)
            (s "2026-01-05T10:00:02") (repeat 120%N 1800) Sample.ann
            (Sample.message "finished the report") _ _ _).
  - discriminate.
  - reflexivity.
  - apply Nat.leb_le. vm_compute. reflexivity.
Defined.

Lemma plain_texts_of_items (texts : list pystr) :
  plain_texts (List.map (fun x => PDict [(s "plain_text", PStr x)]) texts)
  = Ok (List.map PStr texts).
Proof.
  induction texts as [|x rest IH]; [reflexivity|].
  cbn [List.map plain_texts]. rewrite IH. reflexivity.
Qed.

Lemma join_texts_of_texts (texts : list pystr) :
  join_texts (List.map PStr texts) = Ok (List.concat texts).
Proof.
  induction texts as [|x rest IH]; [reflexivity|].
  cbn [List.map join_texts List.concat]. rewrite IH. reflexivity.
Qed.

(** X17. The log [notion_append_log] reads from a page is the texts of the
    rich-text items of its [Update Log], put together in order; a page
    whose properties have no [Update Log] reads as the empty log. *)
Theorem current_log_joins_items
    (page props : list (pystr * pyval)) (texts : list pystr) :
  lookup (s "properties") page = Some (PDict props) ->
  (forall log,
     lookup (s "Update Log") props = Some (PDict log) ->
     lookup (s "rich_text") log
     = Some (PList (List.map (fun x => PDict [(s "plain_text", PStr x)])
                      texts)) ->
     current_log (PDict page) = List.concat texts)
  /\ (lookup (s "Update Log") props = None -> current_log (PDict page) = []).
Proof.
  intros Hp. split.
  - intros log Hl Hr. unfold current_log, rbind, getitem_key.
    rewrite Hp, Hl, Hr. cbn [py_iter].
    rewrite plain_texts_of_items, join_texts_of_texts. reflexivity.
  - intros Hl. unfold current_log, rbind, getitem_key.
    now rewrite Hp, Hl.
Qed.

Lemma current_log_joins_items_witness :
  current_log
    (PDict [(s "id", PStr (s "task-1"));
            (s "properties",
             PDict [(s "Update Log",
                     PDict [(s "rich_text",
                             PList [PDict [(s "plain_text", PStr (s "started"))];
                                    PDict [(s "plain_text", PStr (s " ok"))]])])])])
  = s "started ok".
Proof.
  refine (proj1 (@current_log_joins_items
                   [(s "id", PStr (s "task-1"));
                    (s "properties",
                     PDict [(s "Update Log",
                             PDict [(s "rich_text",
                                     PList [PDict [(s "plain_text", PStr (s "started"))];
                                            PDict [(s "plain_text", PStr (s " ok"))]])])])]
                   [(s "Update Log",
                     PDict [(s "rich_text",
                             PList [PDict [(s "plain_text", PStr (s "started"))];
                                    PDict [(s "plain_text", PStr (s " ok"))]])])]
                   [s "started"; s " ok"] eq_refl)
                [(s "rich_text",
                  PList [PDict [(s "plain_text", PStr (s "started"))];
                         PDict [(s "plain_text", PStr (s " ok"))]])]
                eq_refl eq_refl).
Defined.


(* ================================================================== *)
(** ** The weekly trigger, further *)
(* ================================================================== *)

(** X18. With the secret accepted and a JSON body that gives a week,
    [send_weekly] does not read the clock: it queries the tasks of the given
    week and returns the preview built for that week, with the number of
    tasks it lists. *)
Theorem send_weekly_uses_given_week
    (w : World) (request : Request) (payload : list (pystr * pyval))
    (member : Member) (tasks : list Task) (st st1 st2 : State) :
  header request (s "x-bot-secret") [] = getenv w (s "BOT_SECRET") ->
  json_body request = Some (PDict payload) ->
  truthy (field (PDict payload) "week") = true ->
  notion_find_member_by_phone w (field (PDict payload) "to") st
  = (Ok (Some member), st1) ->
  notion_get_tasks_for_member_week w (m_id member)
    (field (PDict payload) "week") st1 = (Ok tasks, st2) ->
  send_weekly w request st =
  (Ok (Json (PDict [(s "ok", PBool true);
                    (s "preview_message",
                     PStr (build_weekly_message w
                             (field (PDict payload) "week") tasks));
                    (s "tasks", PInt (Z.of_nat (List.length tasks)))])),
   st2)
  /\ ticks st2 = ticks st
  /\ trace st2 =
     trace st ++
     [DatabasesQuery (find_member_kwargs w (field (PDict payload) "to"));
      DatabasesQuery (get_tasks_kwargs w (m_id member)
                        (field (PDict payload) "week"))].
Proof.
  intros Hsecret Hjson Hweek Hm Ht.
  pose proof Hm as Hst1. apply notion_find_member_by_phone_state in Hst1.
  pose proof Ht as Hst2.
  apply notion_get_tasks_for_member_week_state in Hst2.
  split; [|split].
  - unfold send_weekly. rewrite Hsecret, str_eqb_refl. cbn [negb].
    rewrite Hjson. rewrite bind_lift.
    rewrite bind_lift, (@py_get_field (PDict payload) payload "to" eq_refl).
    rewrite bind_lift, (@py_get_field (PDict payload) payload "week" eq_refl).
    unfold bind at 1. rewrite Hweek. unfold ret at 1.
    unfold bind at 1. rewrite Hm.
    unfold bind at 1. rewrite Ht. reflexivity.
  - subst. reflexivity.
  - subst. cbn [log trace]. now rewrite <- app_assoc.
Qed.

Lemma send_weekly_uses_given_week_witness :
  fst (send_weekly (Sample.world None None)
         (Scenario.trigger (PDict [(s "to", PStr (s "+14155552671"));
                                   (s "week", PStr (s "2026-W07"))]))
         initial) =
  Ok (Json (PDict [(s "ok", PBool true);
                   (s "preview_message",
                    PStr (build_weekly_message (Sample.world None None)
                            (PStr (s "2026-W07")) Sample.tasks));
                   (s "tasks", PInt 2)])).
Proof.
  refine (f_equal fst (proj1 (@send_weekly_uses_given_week
            (Sample.world None None)
            (Scenario.trigger (PDict [(s "to", PStr (s "+14155552671"));
                                      (s "week", PStr (s "2026-W07"))]))
            [(s "to", PStr (s "+14155552671"));
             (s "week", PStr (s "2026-W07"))]
            Sample.ann Sample.tasks initial _ _ _ _ _ _ _))).
  - reflexivity.
  - reflexivity.
  - reflexivity.
  - reflexivity.
  - reflexivity.
Defined.

(** X19. With the secret accepted, when the team database has no page for
    the address of the JSON body, [send_weekly] returns the document
    [{"ok": False, "error": ...}] and never queries the tasks. *)
Theorem send_weekly_unknown_member
    (w : World) (request : Request) (payload : list (pystr * pyval))
    (resp results : pyval) (st : State) :
  header request (s "x-bot-secret") [] = getenv w (s "BOT_SECRET") ->
  json_body request = Some (PDict payload) ->
  databases_query w (find_member_kwargs w (field (PDict payload) "to"))
  = Some resp ->
  py_get resp (s "results") PNone = Ok results ->
  truthy results = false ->
  exists st',
    send_weekly w request st =
    (Ok (Json (PDict [(s "ok", PBool false);
                      (s "error",
                       PStr (s "Member not found in Notion Team DB"))])),
     st')
    /\ trace st' =
       trace st ++
       [DatabasesQuery (find_member_kwargs w (field (PDict payload) "to"))].
Proof.
  intros Hsecret Hjson Hq Hres Hempty.
  unfold send_weekly. rewrite Hsecret, str_eqb_refl. cbn [negb].
  rewrite Hjson. rewrite bind_lift.
  rewrite bind_lift, (@py_get_field (PDict payload) payload "to" eq_refl).
  rewrite bind_lift, (@py_get_field (PDict payload) payload "week" eq_refl).
  assert (Hfind : forall st0,
    notion_find_member_by_phone w (field (PDict payload) "to") st0 =
    (Ok None,
     log (DatabasesQuery (find_member_kwargs w (field (PDict payload) "to")))
       st0)).
  { intros st0.
    unfold notion_find_member_by_phone, bind, service, lift. cbv zeta.
    now rewrite Hq, Hres, Hempty. }
  unfold bind at 1.
  destruct (truthy (field (PDict payload) "week")).
  - unfold ret at 1. unfold bind at 1. rewrite Hfind.
    eexists. split; reflexivity.
  - unfold iso_week_key, bind, read_clock, ret.
    rewrite Hfind. eexists. split; reflexivity.
Qed.

Lemma send_weekly_unknown_member_witness :
  exists st',
    send_weekly
      (Scenario.world [] true (Scenario.results []) Scenario.two_tasks None
         None None None None)
      (Scenario.trigger (PDict [(s "to", PStr (s "+14155550000"))])) initial
    = (Ok (Json (PDict [(s "ok", PBool false);
                        (s "error",
                         PStr (s "Member not found in Notion Team DB"))])),
       st')
    /\ trace st' =
       trace initial ++
       [DatabasesQuery
          (find_member_kwargs
             (Scenario.world [] true (Scenario.results [])
                Scenario.two_tasks None None None None None)
             (field (PDict [(s "to", PStr (s "+14155550000"))]) "to"))].
Proof.
  refine (@send_weekly_unknown_member
            (Scenario.world [] true (Scenario.results []) Scenario.two_tasks
               None None None None None)
            (Scenario.trigger (PDict [(s "to", PStr (s "+14155550000"))]))
            [(s "to", PStr (s "+14155550000"))]
            (PDict [(s "results", PList [])]) (PList []) initial _ _ _ _ _).
  - reflexivity.
  - reflexivity.
  - reflexivity.
  - reflexivity.
  - reflexivity.
Defined.

(* ================================================================== *)
(** ** The labels, further *)
(* ================================================================== *)

Lemma length_task_lines_from (w : World) (i : Z) (tasks : list Task) :
  List.length (task_lines_from w i tasks) = List.length tasks.
Proof.
  revert i. induction tasks as [|t rest IH]; intros i; [reflexivity|].
  cbn [task_lines_from List.length]. now rewrite IH.
Qed.

Lemma length_task_list_from (i : Z) (tasks : list Task) :
  List.length (task_list_from i tasks) = List.length tasks.
Proof.
  revert i. induction tasks as [|t rest IH]; intros i; [reflexivity|].
  cbn [task_list_from List.length]. now rewrite IH.
Qed.

Lemma ids_task_list_from (i : Z) (tasks : list Task) :
  List.map c_id (task_list_from i tasks) = List.map t_id tasks.
Proof.
  revert i. induction tasks as [|t rest IH]; intros i; [reflexivity|].
  cbn [task_list_from List.map c_id]. now rewrite IH.
Qed.

(** X20. The digest of [build_weekly_message] has one line per task, in
    list order, and each line starts with the label the candidate summary
    of [ai_parse_update] gives the same task; the summary has one candidate
    per task, with the task's id. *)
Theorem digest_lines_match_candidates (w : World) (tasks : list Task) :
  List.length (task_lines_from w 0 tasks) = List.length tasks
  /\ List.length (task_list_from 0 tasks) = List.length tasks
  /\ List.map (firstn 1) (task_lines_from w 0 tasks)
     = List.map letter (task_list_from 0 tasks)
  /\ List.map c_id (task_list_from 0 tasks) = List.map t_id tasks.
Proof.
  split; [apply length_task_lines_from|].
  split; [apply length_task_list_from|].
  split; [apply digest_labels_from|apply ids_task_list_from].
Qed.

Lemma labels_capital_witness :
  Forall (fun label => is_capital label = true)
    (List.map letter (task_list_from 0 Sample.tasks)).
Proof.
  refine (@labels_capital Sample.tasks _).
  apply Nat.leb_le. reflexivity.
Defined.

(* ================================================================== *)
(** ** A decision without a task *)
(* ================================================================== *)

(** X21. When the decision has a confidence that is not below 0.7 and no
    follow-up, but no task id (a null, missing or empty one),
    [twilio_inbound] answers with the fixed "couldn't match" reply and
    writes nothing: the only calls are the two queries and the scoring
    call. *)
Theorem decision_without_task_gets_could_not_match
    (w : World) (request : Request) (member : Member) (week : pystr)
    (tasks : list Task) (parsed : pyval) (st : State) (c : float) :
  interpreted w request member week tasks parsed st ->
  confidence_of w parsed = Ok c ->
  PrimFloat.ltb c threshold = false ->
  truthy (field parsed "followup") = false ->
  truthy (field parsed "task_id") = false ->
  twilio_inbound w request initial =
  (Ok (Twiml could_not_match),
   {| trace := calls_before_decision w request member week tasks;
      ticks := 1 |}).
Proof.
  intros Hi Hc Hlt Hf Ht.
  rewrite (twilio_inbound_interpreted Hi).
  pose proof (interpreted_state Hi) as Hst.
  destruct Hi as (st0 & _ & Hparse).
  destruct (ai_parse_update_dict _ _ _ _ Hparse) as [kvs Hk].
  unfold apply_parsed.
  rewrite bind_lift, Hc, bind_lift, (py_get_field "followup" Hk), Hlt, Hf.
  cbn [orb].
  rewrite bind_lift, (py_get_field "task_id" Hk), Ht. cbn [negb].
  now rewrite Hst.
Qed.

Lemma decision_without_task_gets_could_not_match_witness :
  twilio_inbound
    (Sample.deciding [(s "status", PStr (s "Done"));
                      (s "confidence", PFloat 0.875)])
    (Sample.message "all done") initial =
  (Ok (Twiml could_not_match),
   {| trace :=
        calls_before_decision
          (Sample.deciding [(s "status", PStr (s "Done"));
                            (s "confidence", PFloat 0.875)])
          (Sample.message "all done") Sample.ann Sample.week Sample.tasks;
      ticks := 1 |}).
Proof.
  refine (@decision_without_task_gets_could_not_match
            (Sample.deciding [(s "status", PStr (s "Done"));
                              (s "confidence", PFloat 0.875)])
            (Sample.message "all done") Sample.ann Sample.week Sample.tasks
            (PDict [(s "status", PStr (s "Done"));
                    (s "confidence", PFloat 0.875);
                    (s "task_id", PNone); (s "progress", PNone);
                    (s "blocker", PNone); (s "needs_attention", PNone);
                    (s "followup", PNone)])
            _ 0.875%float _ _ _ _ _).
  - reach.
  - reflexivity.
  - reflexivity.
  - reflexivity.
  - reflexivity.
Defined.
